(** * tornado_helpers: the document manager and the request pipeline

    A shallow embedding of [base/managers.py] (the [Queryset] container and
    [MotorModelManager]) and of [contrib/base/handlers.py] ([MongoAPIMixin]
    and [ModelAPIView]), with the properties of the specification stated and
    proved over it.

    Python objects that are shared and mutated (the filter dictionaries) live
    in a heap indexed by object identity; the coroutines become computations
    in a state-and-exception monad over a [world] that holds the heap, the
    collection, the manager's attributes and the handler's response. The
    request object is changed in one place, where [extract_query_args] pops
    the values it parses; its arguments are passed on explicitly from there
    to the checks and to the method. *)

From Stdlib Require Import ZArith Lia Bool Ascii String.
From stdpp Require Import base option list strings gmap pretty.

#[local] Set Warnings "-register-all".

Local Open Scope string_scope.
Local Open Scope Z_scope.
Local Open Scope list_scope.

(** ** Python text operations used by the handlers *)

Module PyStr.

(** [s.split(',')]: the pieces between commas; never the empty list. *)
Fixpoint split_comma (s : string) : list string :=
  match s with
  | EmptyString => [EmptyString]
  | String c r =>
      if Ascii.eqb c ","%char then EmptyString :: split_comma r
      else match split_comma r with
           | h :: t => String c h :: t
           | [] => [String c EmptyString]
           end
  end.

(** [s.replace('__', '.')]: left to right, occurrences do not overlap. *)
Fixpoint replace_dunder (s : string) : string :=
  match s with
  | EmptyString => EmptyString
  | String c r =>
      match r with
      | String d r' =>
          if Ascii.eqb c "_"%char && Ascii.eqb d "_"%char
          then String "."%char (replace_dunder r')
          else String c (replace_dunder r)
      | EmptyString => String c EmptyString
      end
  end.

(** [uri.split('?')[0]]: the text before the first question mark. *)
Fixpoint before_query (s : string) : string :=
  match s with
  | EmptyString => EmptyString
  | String c r => if Ascii.eqb c "?"%char then EmptyString else String c (before_query r)
  end.

(** Whether ["__"] occurs in [s]. *)
Fixpoint has_dunder (s : string) : bool :=
  match s with
  | EmptyString => false
  | String c r =>
      match r with
      | String d _ => (Ascii.eqb c "_"%char && Ascii.eqb d "_"%char) || has_dunder r
      | EmptyString => false
      end
  end.

End PyStr.

(** ** Values *)

(** [bson.ObjectId]: an immutable wrapper of its [binary] bytes. *)
Record ObjectId := mkObjectId { binary : string }.

(** The Python values that flow through filters, documents and the
    manager's attributes: [None], integers, text, the two kinds of list that
    query-string parsing builds, and identifiers. *)
Inductive pyval :=
| PNone
| PInt (n : Z)
| PStr (s : string)
| PInts (l : list Z)
| PStrs (l : list string)
| POid (o : ObjectId).

#[global] Instance ObjectId_eq_dec : EqDecision ObjectId.
Proof. solve_decision. Defined.
#[global] Instance pyval_eq_dec : EqDecision pyval.
Proof. solve_decision. Defined.

(** Python's truth test: [None], [0], [''] and [[]] are false; an
    [ObjectId] defines neither [__bool__] nor [__len__] and is true. *)
Definition truthy (v : pyval) : bool :=
  match v with
  | PNone => false
  | PInt n => negb (Z.eqb n 0)
  | PStr s => negb (String.eqb s EmptyString)
  | PInts l => negb (Nat.eqb (length l) 0)
  | PStrs l => negb (Nat.eqb (length l) 0)
  | POid _ => true
  end.

(** The truth test of an instance of a class that defines neither
    [__bool__] nor [__len__] (pymongo's [DeleteResult] and [UpdateResult]):
    always true. *)
Definition truthy_object {A : Type} (_ : A) : bool := true.

(** A Python [dict] with text keys. *)
Abbreviation dict := (gmap string pyval).

(** JSON-compatible data, as [json.loads] returns it and [json.dumps]
    accepts it. *)
Inductive jval :=
| JNull
| JInt (n : Z)
| JStr (s : string)
| JList (l : list jval)
| JObj (o : list (string * jval)).

(** ** Exceptions and results *)

Inductive exn :=
| Finish                        (* tornado.web.Finish *)
| EmptyPage                     (* contrib.base.pagination.EmptyPage *)
| InvalidId (text : string)     (* bson.errors.InvalidId *)
| TypeError
| ValueError
| IndexError
| UnicodeDecodeError
| DuplicateKeyError.            (* pymongo.errors.DuplicateKeyError *)

Inductive result (A : Type) :=
| Ok (a : A)
| Raise (e : exn).
Arguments Ok {A} a.
Arguments Raise {A} e.

Definition rbind {A B} (r : result A) (k : A -> result B) : result B :=
  match r with
  | Ok a => k a
  | Raise e => Raise e
  end.

(** ** What the code takes from its libraries

    The standard library, bson, pymongo/motor, schematics and urllib are
    outside the repository; the embedding is parametric in them. *)

Inductive direction := ASCENDING | DESCENDING.

Class Libraries := {
  (** [int(text)]: [None] stands for [ValueError]. *)
  py_int : string -> option Z;
  (** [bytes.decode('utf8')]: [None] stands for [UnicodeDecodeError]. *)
  decode_utf8 : string -> option string;
  (** [ObjectId(text)]: [None] stands for [InvalidId]. *)
  ObjectId_of_str : string -> option ObjectId;
  (** [str(value)]; for an [ObjectId], its 24 hexadecimal digits. *)
  py_str : pyval -> string;
  (** [ObjectId()]: the identifier generated for the n-th insertion. *)
  ObjectId_generate : nat -> ObjectId;
  (** whether a stored document satisfies a query filter. *)
  matches : dict -> dict -> bool;
  (** the cursor's ordering of the documents by one key. *)
  sort_docs : string -> direction -> list dict -> list dict;
  (** the document as returned under a projection [{field: 0, ...}]. *)
  project : gmap string Z -> dict -> dict;
  (** whether inserting the document would violate a unique index. *)
  duplicate_key : list dict -> dict -> bool;
  (** [json.loads(json_util.dumps(document))]. *)
  bson_to_json : dict -> jval;
  (** [urlencode(parse_qs(urlparse(uri).query) with page := [n], doseq=True)]. *)
  encode_page_query : string -> Z -> string;
}.

(** ** Query-string parsing ([MongoAPIMixin.extract_query_args]) *)

Section QueryArgs.
Context {libs : Libraries}.

(** [[int(arg) for arg in splited_query_arg]]: stops at the first piece
    that is not an integer. *)
Fixpoint int_list (args : list string) : result (list Z) :=
  match args with
  | [] => Ok []
  | arg :: rest =>
      match py_int arg with
      | None => Raise ValueError
      | Some n => rbind (int_list rest) (fun ns => Ok (n :: ns))
      end
  end.

(** The body of the [try] statement and its [except] clause: the value
    stored under the key. *)
Definition query_arg_value (splited_query_arg : list string) : pyval :=
  match int_list splited_query_arg with
  | Ok query_arg =>
      match query_arg with
      | [n] => PInt n
      | _ => PInts query_arg
      end
  | Raise _ =>
      match splited_query_arg with
      | [s] => PStr s
      | _ => PStrs splited_query_arg
      end
  end.

(** The [for key in request_query_args] loop. [list_data.pop()] takes the
    last value given for the key out of the request's own list; [pop] on an
    empty list raises [IndexError]. The second component is the request's
    arguments as the loop leaves them, also when it raises. *)
Fixpoint extract_loop (items : list (string * list string)) (query_args : dict)
  : result dict * list (string * list string) :=
  match items with
  | [] => (Ok query_args, [])
  | (key, list_data) :: rest =>
      match last list_data with
      | None => (Raise IndexError, (key, list_data) :: rest)
      | Some encoded_arg =>
          let list_data := removelast list_data in
          match decode_utf8 encoded_arg with
          | None => (Raise UnicodeDecodeError, (key, list_data) :: rest)
          | Some query_arg =>
              let splited_query_arg := PyStr.split_comma query_arg in
              let new_key := PyStr.replace_dunder key in
              let looped :=
                extract_loop rest
                  (<[new_key := query_arg_value splited_query_arg]> query_args) in
              (looped.1, (key, list_data) :: looped.2)
          end
      end
  end.

(** [extract_query_args]: what it returns or raises, and the request's
    arguments as it leaves them. *)
Definition extract_query_args (request_query_args : list (string * list string))
  : result dict * list (string * list string) :=
  match request_query_args with
  | [] => (Ok ∅, [])
  | _ => extract_loop request_query_args ∅
  end.

End QueryArgs.

(** ** The world: heap, collection, manager and handler state *)

(** The identity of a [dict] object. *)
Definition loc := nat.

(** The update document handed to the driver: operator name to fields. *)
Abbreviation update_doc := (gmap string dict).

(** A motor cursor: the query and the modifiers set on it so far. *)
Record Cursor := mkCursor {
  cursor_filter : dict;
  cursor_projection : option (gmap string Z);
  cursor_skip : Z;
  cursor_limit : Z;
  cursor_sort : option (string * direction);
}.

(** Calls that leave the program: to the driver and to the plug-ins. *)
Inductive event :=
| count_documents_call (query : dict)
| to_list_call (cursor : Cursor)
| find_one_call (query : dict) (projection : option (gmap string Z))
| insert_one_call (document : dict)
| update_one_call (query : dict) (update : update_doc)
| update_many_call (query : dict) (update : update_doc)
| delete_one_call (query : dict)
| has_permission_call (position : nat)
| authenticate_call.

Record world := mkWorld {
  heap : gmap loc dict;          (* the dict objects, by identity *)
  documents : list dict;         (* the collection, in natural order *)
  generated : nat;               (* identifiers generated so far *)
  manager_skip : pyval;          (* MotorModelManager.skip *)
  manager_limit : pyval;         (* MotorModelManager.limit *)
  query_filter : loc;            (* handler.query_filter *)
  page : pyval;                  (* handler.page *)
  page_size : pyval;             (* handler.page_size *)
  written : list jval;           (* data written to the response, oldest first *)
  status : Z;                    (* the response status *)
  events : list event;           (* calls made so far, oldest first *)
}.

Definition set_heap (h : gmap loc dict) (w : world) : world :=
  mkWorld h (documents w) (generated w) (manager_skip w) (manager_limit w)
    (query_filter w) (page w) (page_size w) (written w) (status w) (events w).
Definition set_documents (d : list dict) (w : world) : world :=
  mkWorld (heap w) d (generated w) (manager_skip w) (manager_limit w)
    (query_filter w) (page w) (page_size w) (written w) (status w) (events w).
Definition set_generated (n : nat) (w : world) : world :=
  mkWorld (heap w) (documents w) n (manager_skip w) (manager_limit w)
    (query_filter w) (page w) (page_size w) (written w) (status w) (events w).
Definition set_manager_skip (v : pyval) (w : world) : world :=
  mkWorld (heap w) (documents w) (generated w) v (manager_limit w)
    (query_filter w) (page w) (page_size w) (written w) (status w) (events w).
Definition set_manager_limit (v : pyval) (w : world) : world :=
  mkWorld (heap w) (documents w) (generated w) (manager_skip w) v
    (query_filter w) (page w) (page_size w) (written w) (status w) (events w).
Definition set_query_filter (l : loc) (w : world) : world :=
  mkWorld (heap w) (documents w) (generated w) (manager_skip w) (manager_limit w)
    l (page w) (page_size w) (written w) (status w) (events w).
Definition set_page (v : pyval) (w : world) : world :=
  mkWorld (heap w) (documents w) (generated w) (manager_skip w) (manager_limit w)
    (query_filter w) v (page_size w) (written w) (status w) (events w).
Definition set_page_size (v : pyval) (w : world) : world :=
  mkWorld (heap w) (documents w) (generated w) (manager_skip w) (manager_limit w)
    (query_filter w) (page w) v (written w) (status w) (events w).
Definition set_written (l : list jval) (w : world) : world :=
  mkWorld (heap w) (documents w) (generated w) (manager_skip w) (manager_limit w)
    (query_filter w) (page w) (page_size w) l (status w) (events w).
Definition set_status (n : Z) (w : world) : world :=
  mkWorld (heap w) (documents w) (generated w) (manager_skip w) (manager_limit w)
    (query_filter w) (page w) (page_size w) (written w) n (events w).
Definition set_events (l : list event) (w : world) : world :=
  mkWorld (heap w) (documents w) (generated w) (manager_skip w) (manager_limit w)
    (query_filter w) (page w) (page_size w) (written w) (status w) l.

(** ** Computations: state and exceptions *)

Definition M (A : Type) : Type := world -> result A * world.

Definition ret {A} (a : A) : M A := fun w => (Ok a, w).
Definition raise {A} (e : exn) : M A := fun w => (Raise e, w).
Definition bind {A B} (m : M A) (k : A -> M B) : M B :=
  fun w => match m w with
           | (Ok a, w') => k a w'
           | (Raise e, w') => (Raise e, w')
           end.
Definition gets {A} (f : world -> A) : M A := fun w => (Ok (f w), w).
Definition modify (f : world -> world) : M unit := fun w => (Ok tt, f w).
Definition lift {A} (r : result A) : M A := fun w => (r, w).
Definition emit (e : event) : M unit :=
  modify (fun w => set_events (events w ++ [e]) w).

Notation "'let*' x ':=' m 'in' k" := (bind m (fun x => k))
  (at level 10, x name, m at level 100, k at level 200).
Notation "'do' m 'in' k" := (bind m (fun _ => k))
  (at level 10, m at level 100, k at level 200).

(** Reading and replacing the contents of a dict object. *)
Definition deref (l : loc) : M dict := gets (fun w => heap w !!! l).
Definition assign (l : loc) (d : dict) : M unit :=
  modify (fun w => set_heap (<[l := d]> (heap w)) w).
(** A new dict object. *)
Definition alloc (d : dict) : M loc :=
  fun w => let l := fresh (dom (heap w)) in (Ok l, set_heap (<[l := d]> (heap w)) w).

(** ** The driver (motor over pymongo), on the collection of the world *)

Record DeleteResult := mkDeleteResult { deleted_count : nat }.
Record UpdateResult := mkUpdateResult { matched_count : nat; modified_count : nat }.
Record InsertOneResult := mkInsertOneResult { inserted_id : pyval }.

(** What [find] hands to [_parse_json]: the list of a cursor, or the
    document (or [None]) of [find_one]. *)
Inductive found :=
| FoundMany (docs : list dict)
| FoundOne (doc : option dict).

Module Driver.
Section Defs.
Context {libs : Libraries}.

Definition project_with (projection : option (gmap string Z)) (d : dict) : dict :=
  match projection with
  | Some p => project p d
  | None => d
  end.

Definition count_documents (query : dict) : M nat :=
  do emit (count_documents_call query) in
  gets (fun w => length (List.filter (matches query) (documents w))).

(** [collection.find(query, projection)]: a cursor; nothing is sent yet. *)
Definition collection_find (query : dict) (projection : option (gmap string Z)) : Cursor :=
  mkCursor query projection 0 0 None.

(** [cursor.skip(n)]: an integer, not negative. *)
Definition skip (c : Cursor) (n : pyval) : M Cursor :=
  match n with
  | PInt n =>
      if n <? 0 then raise ValueError
      else ret (mkCursor (cursor_filter c) (cursor_projection c) n (cursor_limit c) (cursor_sort c))
  | _ => raise TypeError
  end.

(** [cursor.limit(n)]: an integer. *)
Definition limit (c : Cursor) (n : pyval) : M Cursor :=
  match n with
  | PInt n => ret (mkCursor (cursor_filter c) (cursor_projection c) (cursor_skip c) n (cursor_sort c))
  | _ => raise TypeError
  end.

Definition sort (c : Cursor) (key : string * direction) : Cursor :=
  mkCursor (cursor_filter c) (cursor_projection c) (cursor_skip c) (cursor_limit c) (Some key).

(** The documents a cursor yields: the matching ones, ordered, without the
    skipped ones, up to the limit (0 is no limit, a negative limit counts
    as its absolute value), each under the projection. *)
Definition cursor_documents (c : Cursor) (docs : list dict) : list dict :=
  let matching := List.filter (matches (cursor_filter c)) docs in
  let ordered := match cursor_sort c with
                 | Some (key, dir) => sort_docs key dir matching
                 | None => matching
                 end in
  let skipped := drop (Z.to_nat (cursor_skip c)) ordered in
  let limited := if cursor_limit c =? 0 then skipped
                 else take (Z.to_nat (Z.abs (cursor_limit c))) skipped in
  map (project_with (cursor_projection c)) limited.

Definition to_list (c : Cursor) : M (list dict) :=
  do emit (to_list_call c) in
  gets (fun w => cursor_documents c (documents w)).

Definition find_one (query : dict) (projection : option (gmap string Z)) : M (option dict) :=
  do emit (find_one_call query projection) in
  gets (fun w => project_with projection <$> head (List.filter (matches query) (documents w))).

(** [insert_one(document)]: a document without ['_id'] is given a generated
    one, in place; the updated document is returned with the result. *)
Definition insert_one (document : dict) : M (dict * InsertOneResult) :=
  do emit (insert_one_call document) in
  let* document :=
    match document !! "_id" with
    | Some _ => ret document
    | None =>
        let* n := gets generated in
        do modify (set_generated (S n)) in
        ret (<["_id" := POid (ObjectId_generate n)]> document)
    end in
  let* docs := gets documents in
  if duplicate_key docs document then raise DuplicateKeyError
  else
    do modify (set_documents (docs ++ [document])) in
    ret (document, mkInsertOneResult (default PNone (document !! "_id"))).

(** The effect of an update document on one stored document: the fields
    under ["$set"] replace the stored ones. *)
Definition apply_update (update : update_doc) (d : dict) : dict :=
  match update !! "$set" with
  | Some fields => fields ∪ d
  | None => d
  end.

Fixpoint update_first (query : dict) (update : update_doc) (docs : list dict) : list dict :=
  match docs with
  | [] => []
  | d :: rest =>
      if matches query d then apply_update update d :: rest
      else d :: update_first query update rest
  end.

Definition update_all (query : dict) (update : update_doc) (docs : list dict) : list dict :=
  map (fun d => if matches query d then apply_update update d else d) docs.

(** Whether the update changes the document. *)
Definition modifies (update : update_doc) (d : dict) : bool :=
  negb (bool_decide (apply_update update d = d)).

Definition update_one (query : dict) (update : update_doc) : M UpdateResult :=
  do emit (update_one_call query update) in
  let* docs := gets documents in
  do modify (set_documents (update_first query update docs)) in
  let matching := take 1 (List.filter (matches query) docs) in
  ret (mkUpdateResult (length matching) (length (List.filter (modifies update) matching))).

Definition update_many (query : dict) (update : update_doc) : M UpdateResult :=
  do emit (update_many_call query update) in
  let* docs := gets documents in
  do modify (set_documents (update_all query update docs)) in
  let matching := List.filter (matches query) docs in
  ret (mkUpdateResult (length matching) (length (List.filter (modifies update) matching))).

Fixpoint remove_first (query : dict) (docs : list dict) : list dict :=
  match docs with
  | [] => []
  | d :: rest => if matches query d then rest else d :: remove_first query rest
  end.

Definition delete_one (query : dict) : M DeleteResult :=
  do emit (delete_one_call query) in
  let* docs := gets documents in
  do modify (set_documents (remove_first query docs)) in
  ret (mkDeleteResult (length (take 1 (List.filter (matches query) docs)))).

End Defs.
End Driver.

(** ** [base/managers.py]: [Queryset] and [MotorModelManager] *)

Record Queryset := mkQueryset { _value : jval; total : Z }.

Definition asdict (queryset : Queryset) : jval := _value queryset.

(** A model object, as far as the manager uses it. *)
Record Model := mkModel { to_primitive : dict }.

Module MotorModelManager.
Import Driver.
Section Defs.
Context {libs : Libraries}.

(** [ObjectId(oid)]: a copy of an identifier, the parse of a text, a new
    identifier for [None], [TypeError] for anything else. *)
Definition ObjectId_init (oid : pyval) : M ObjectId :=
  match oid with
  | POid o => ret o
  | PStr s =>
      match ObjectId_of_str s with
      | Some o => ret o
      | None => raise (InvalidId s)
      end
  | PNone =>
      let* n := gets generated in
      do modify (set_generated (S n)) in
      ret (ObjectId_generate n)
  | _ => raise TypeError
  end.

(** [_convert_id_field]: [query_filter.get('_id')] is [None] when the key
    is absent; the assignment updates the caller's object. *)
Definition _convert_id_field (query_filter : loc) : M loc :=
  let* d := deref query_filter in
  let has_id_field := default PNone (d !! "_id") in
  do (if truthy has_id_field then
        let* oid := ObjectId_init has_id_field in
        let* d := deref query_filter in
        assign query_filter (<["_id" := POid oid]> d)
      else ret tt) in
  ret query_filter.

Definition _parse_query_filter (query_filter : loc) : M loc :=
  let* query_filter := _convert_id_field query_filter in
  ret query_filter.

Definition _parse_remove_fields (fields : list string) : option (gmap string Z) :=
  match fields with
  | [] => None
  | _ => Some (list_to_map (map (fun field => (field, 0)) fields))
  end.

(** [json.loads(json_util.dumps(data))]. *)
Definition _parse_json (data : found) : jval :=
  match data with
  | FoundMany docs => JList (map bson_to_json docs)
  | FoundOne (Some doc) => bson_to_json doc
  | FoundOne None => JNull
  end.

Definition find (query_filter : loc) (many : bool) (sort_key : option (string * direction))
    (remove_fields : list string) (limit_arg : pyval) : M Queryset :=
  let* query_filter := _parse_query_filter query_filter in
  let fields_to_remove := _parse_remove_fields remove_fields in
  let* query := deref query_filter in
  let* count := count_documents query in
  let* results :=
    (if many then
       let cursor := collection_find query fields_to_remove in
       let* self_skip := gets manager_skip in
       let* cursor := (if truthy self_skip then skip cursor self_skip else ret cursor) in
       let* cursor := (if truthy limit_arg then limit cursor limit_arg else ret cursor) in
       let* self_limit := gets manager_limit in
       let* cursor := (if truthy self_limit then limit cursor self_limit else ret cursor) in
       let cursor := match sort_key with
                     | Some key => sort cursor key
                     | None => cursor
                     end in
       let* results := to_list cursor in
       ret (FoundMany results)
     else
       let* results := find_one query fields_to_remove in
       ret (FoundOne results)) in
  let parsed_results := _parse_json results in
  let queryset := mkQueryset parsed_results (Z.of_nat count) in
  ret queryset.

Definition create (model_object : Model) : M dict :=
  let data := to_primitive model_object in
  let data := base.delete "_id" data in
  let* inserted := insert_one data in
  let '(data, result) := inserted in
  let data := <["_id" := PStr (py_str (inserted_id result))]> data in
  ret data.

(** [update]: the name [data] is rebound to the update document before its
    length is taken. Calling the driver starts the operation, so the
    single-document update is issued whatever follows. *)
Definition update (query_filter : loc) (data : dict) : M UpdateResult :=
  let* query_filter := _convert_id_field query_filter in
  let data : update_doc := {["$set" := data]} in
  let* query := deref query_filter in
  let* future := update_one query data in
  let* future := (if 1 <? Z.of_nat (size data)
                  then update_many query data
                  else ret future) in
  let result := future in
  ret result.

Definition delete (query_filter : loc) : M DeleteResult :=
  let* query_filter := _convert_id_field query_filter in
  let* query := deref query_filter in
  let* result := delete_one query in
  ret result.

End Defs.
End MotorModelManager.

(** ** The paginator *)

Module Pagination.

(** Modelled from the spec: [contrib/base/pagination.py] ([Paginator],
    [EmptyPage]) is not among the sources. Section 4.2 of the specification
    gives it: a paginator is built from the rows of the current page, the
    page size and the total count; page numbers start at 1 and the last page
    is [ceil(total / page_size)]. *)
Record Paginator := mkPaginator {
  rows : list jval;
  per_page : Z;
  count : Z;
}.

(** Modelled from the spec: a page holds the caller-supplied rows, never a
    slice of them, with its number and the counts. *)
Record Page := mkPage {
  object_list : list jval;
  number : Z;
  page_size : Z;
  total_count : Z;
}.

(** Modelled from the spec: the number of the last page. *)
Definition num_pages (p : Paginator) : Z :=
  (count p + per_page p - 1) / per_page p.

(** Modelled from the spec: page 0, a negative page and a page beyond the
    last one raise [EmptyPage]. *)
Definition page (p : Paginator) (page_number : Z) : result Page :=
  if (page_number <? 1) || (num_pages p <? page_number) then Raise EmptyPage
  else Ok (mkPage (rows p) page_number (per_page p) (count p)).

(** Modelled from the spec: [has_next()] is true iff
    [page_number * page_size < total]. *)
Definition has_next (pg : Page) : bool :=
  number pg * page_size pg <? total_count pg.

(** Modelled from the spec: the number that follows the page's. *)
Definition next_page_number (pg : Page) : Z := number pg + 1.

(** Modelled from the spec: [previous_page_number()] is defined only when
    [page_number > 1]. *)
Definition previous_page_number (pg : Page) : result Z :=
  if 1 <? number pg then Ok (number pg - 1) else Raise EmptyPage.

End Pagination.

(** ** [contrib/base/handlers.py] *)

Record HTTPServerRequest := mkRequest {
  uri : string;
  (** [request.query_arguments]: each key with the values given for it. *)
  query_arguments : list (string * list string);
}.

(** Modelled from the spec: [contrib/base/permissions.py] is not among the
    sources. Section 9 gives the interface: a permission answers
    [has_permission(request)] and [has_object_permission(request, object)]
    with a boolean, and carries the message of its refusal. *)
Record PermissionClass := mkPermission {
  has_permission : HTTPServerRequest -> bool;
  has_object_permission : HTTPServerRequest -> jval -> bool;
  message : jval;
}.

(** Modelled from the spec: [contrib/auth/authenticators.py] is not among
    the sources. Section 9 gives the interface: an authenticator answers
    [authenticate(request)] with a boolean, and carries the message of its
    refusal. *)
Record AuthenticationClass := mkAuthentication {
  authenticate : HTTPServerRequest -> bool;
  unauthorized_message : jval;
}.

(** The attributes of a handler that are not assigned while a request is
    served; what is assigned is in the world. [request] is the request
    object as it is when the handler starts: [extract_query_args] changes
    its arguments, and what runs after it is given the handler with the
    request as it is then. The [pagination_class] is [Paginator]. *)
Record Handler := mkHandler {
  request : HTTPServerRequest;
  authentication_class : AuthenticationClass;
  permissions_classes : list PermissionClass;
  (** [model.Options.roles['public'].fields] *)
  public_fields : list string;
}.

Module MongoAPIMixin.

(** The handler whose request object holds [request_query_args]. *)
Definition with_query_arguments (self : Handler)
    (request_query_args : list (string * list string)) : Handler :=
  mkHandler (mkRequest (uri (request self)) request_query_args)
    (authentication_class self) (permissions_classes self) (public_fields self).

(** [json_response]: writes, sets the status and raises [Finish]; it never
    returns. *)
Definition json_response {A} (data : jval) (status : Z) : M A :=
  do modify (fun w => set_written (written w ++ [data]) w) in
  do modify (set_status status) in
  raise Finish.

Section Checks.
Variable self : Handler.

(** The loop of [check_permissions], from the class at [position]. *)
Fixpoint check_permissions_from (position : nat) (classes : list PermissionClass)
  : M unit :=
  match classes with
  | [] => ret tt
  | permission_class :: rest =>
      do emit (has_permission_call position) in
      if negb (has_permission permission_class (request self))
      then json_response (message permission_class) 403
      else check_permissions_from (S position) rest
  end.

Definition check_permissions : M unit :=
  check_permissions_from 0 (permissions_classes self).

Definition check_authentication : M unit :=
  let auhentication := authentication_class self in
  do emit authenticate_call in
  if negb (authenticate auhentication (request self))
  then json_response (unauthorized_message auhentication) 401
  else ret tt.

End Checks.

Section Defs.
Context {libs : Libraries}.
Variable self : Handler.

(** [d.pop(key, default)] on a dict object. *)
Definition pop (l : loc) (key : string) (default_value : pyval) : M pyval :=
  let* d := deref l in
  match d !! key with
  | Some v => do assign l (base.delete key d) in ret v
  | None => ret default_value
  end.

(** The handler as [extract_query_args] leaves it: the request has lost
    the values that were popped. *)
Definition prepared : Handler :=
  with_query_arguments self (extract_query_args (query_arguments (request self))).2.

(** [prepare]: [self.request] is one object, so the checks, which run after
    [extract_query_args], are given the request with the popped lists. *)
Definition prepare : M unit :=
  let extracted := extract_query_args (query_arguments (request self)) in
  let self := with_query_arguments self extracted.2 in
  let* args := lift extracted.1 in
  let* query_filter := alloc args in
  do modify (set_query_filter query_filter) in
  let* page := pop query_filter "page" (PInt 0) in
  do modify (set_page page) in
  let* self_page_size := gets page_size in
  let* page_size := pop query_filter "page_size" self_page_size in
  do modify (set_page_size page_size) in
  do modify (set_manager_skip page) in
  do modify (set_manager_limit page_size) in
  do check_permissions self in
  check_authentication self.

Definition process_response (queryset : Queryset) : jval := asdict queryset.

(** [self.page_size] *)
Definition self_page_size : M pyval := gets page_size.

(** [int(current_page)] *)
Definition int_of (v : pyval) : result Z :=
  match v with
  | PInt n => Ok n
  | PStr s =>
      match py_int s with
      | Some n => Ok n
      | None => Raise ValueError
      end
  | _ => Raise TypeError
  end.

(** [self.pagination_class(data, page_size, count)]: the page size is an
    integer. *)
Definition pagination_class (data : list jval) (page_size : pyval) (count : Z)
  : result Pagination.Paginator :=
  match page_size with
  | PInt n => Ok (Pagination.mkPaginator data n count)
  | _ => Raise TypeError
  end.

Definition page_link (full_uri : string) (page_number : Z) : string :=
  PyStr.before_query full_uri +:+ "?" +:+ encode_page_query full_uri page_number.

(** The body of the [try] statement of [paginate_response]: the values of
    [next_page] and [prev_page] when it ends, and its results or the
    exception that ended it. *)
Definition paginate_try (data : jval) (current_page page_size : pyval) (count : Z)
  : option string * option string * result (list jval) :=
  let full_uri := uri (request self) in
  let data := match data with
              | JList l => l
              | _ => [data]
              end in
  match int_of current_page with
  | Raise e => (None, None, Raise e)
  | Ok current_page =>
  match pagination_class data page_size count with
  | Raise e => (None, None, Raise e)
  | Ok paginator =>
  match Pagination.page paginator current_page with
  | Raise e => (None, None, Raise e)
  | Ok paginated_data =>
      let next_page :=
        if Pagination.has_next paginated_data
        then Some (page_link full_uri (Pagination.next_page_number paginated_data))
        else None in
      if 1 <? current_page then
        match Pagination.previous_page_number paginated_data with
        | Raise e => (next_page, None, Raise e)
        | Ok prev_page_number =>
            (next_page, Some (page_link full_uri prev_page_number),
             Ok (Pagination.object_list paginated_data))
        end
      else (next_page, None, Ok (Pagination.object_list paginated_data))
  end end end.

Definition json_of_link (link : option string) : jval :=
  match link with
  | Some url => JStr url
  | None => JNull
  end.

Definition paginate_response (queryset : Queryset) (current_page page_size : pyval)
  : M jval :=
  let data := _value queryset in
  let count := total queryset in
  let* self_page_size := self_page_size in
  let page_size := if negb (truthy page_size) then self_page_size else page_size in
  let '(next_page, prev_page, outcome) := paginate_try data current_page page_size count in
  let* results :=
    match outcome with
    | Ok results => ret results
    | Raise EmptyPage | Raise ValueError => ret []
    | Raise e => raise e
    end in
  let paginated_response :=
    JObj [("count", JInt count);
          ("next", json_of_link next_page);
          ("previous", json_of_link prev_page);
          ("results", JList results)] in
  ret paginated_response.

Definition get_queryset (many : bool) : M Queryset :=
  let fields_to_remove := public_fields self in
  let* query_filter := gets query_filter in
  let* queryset :=
    MotorModelManager.find query_filter many (Some ("_id", DESCENDING))
      fields_to_remove PNone in
  ret queryset.

End Defs.
End MongoAPIMixin.

Module ModelAPIView.
Import MongoAPIMixin.
Section Defs.
Context {libs : Libraries}.
Variable self : Handler.

(** [list]: [paginate_response] is called with its defaults,
    [current_page=1] and [page_size=None]. *)
Definition list : M unit :=
  let* queryset := get_queryset self true in
  let response := process_response queryset in
  let* response := paginate_response self queryset (PInt 1) PNone in
  json_response response 200.

Definition delete (object_id : string) : M unit :=
  let* query_filter := alloc {["_id" := PStr object_id]} in
  let* result := MotorModelManager.delete query_filter in
  if negb (truthy_object result) then
    json_response (JObj [("error", JList [JStr "Não foi possível remover o registro."])]) 400
  else
    let response := JObj [("_id", JStr object_id)] in
    json_response response 200.

End Defs.
End ModelAPIView.

(** ** How tornado runs a request *)

(** What the client receives: the status and the data written, or the
    exception that the handler let escape (then tornado answers 500). *)
Inductive outcome :=
| Responded (status : Z) (body : list jval)
| Escaped (e : exn).

(** [prepare] runs first; the method runs unless [prepare] finished the
    request, on the handler as [prepare] left it. [Finish] ends the request
    with what was written. *)
Definition execute {libs : Libraries} (self : Handler) (method : Handler -> M unit)
    (w : world) : outcome * world :=
  match (do MongoAPIMixin.prepare self in method (MongoAPIMixin.prepared self)) w with
  | (Ok _, w') => (Responded (status w') (written w'), w')
  | (Raise Finish, w') => (Responded (status w') (written w'), w')
  | (Raise e, w') => (Escaped e, w')
  end.

(** The world of a new handler over a collection: the class attributes
    [skip = None], [limit = None], [page_size = 20], status 200. *)
Definition new_world (docs : list dict) (generated : nat) : world :=
  mkWorld ∅ docs generated PNone PNone 0%nat PNone (PInt 20) [] 200 [].

(** ** A small instance of the libraries, to run the program on examples

    Decimal integers, ASCII text, identifiers of 24 hexadecimal digits,
    filters that match by equality on every key, ordering by the key's
    value. The theorems below hold for every instance; the examples are
    evaluated on this one. *)

Module Sample.

Definition digit_of (c : ascii) : option Z :=
  let n := nat_of_ascii c in
  if (48 <=? n)%nat && (n <=? 57)%nat then Some (Z.of_nat (n - 48)) else None.

Fixpoint digits_value (acc : Z) (s : string) : option Z :=
  match s with
  | EmptyString => Some acc
  | String c r =>
      match digit_of c with
      | Some d => digits_value (10 * acc + d) r
      | None => None
      end
  end.

Definition decimal_int (s : string) : option Z :=
  match s with
  | EmptyString => None
  | String c r =>
      if Ascii.eqb c "-"%char then
        match r with
        | EmptyString => None
        | _ => Z.opp <$> digits_value 0 r
        end
      else digits_value 0 s
  end.

Fixpoint is_ascii (s : string) : bool :=
  match s with
  | EmptyString => true
  | String c r => (nat_of_ascii c <? 128)%nat && is_ascii r
  end.

Definition hex_of (c : ascii) : option nat :=
  let n := nat_of_ascii c in
  if (48 <=? n)%nat && (n <=? 57)%nat then Some (n - 48)%nat
  else if (97 <=? n)%nat && (n <=? 102)%nat then Some (n - 87)%nat
  else if (65 <=? n)%nat && (n <=? 70)%nat then Some (n - 55)%nat
  else None.

Fixpoint unhexlify (s : string) : option string :=
  match s with
  | EmptyString => Some EmptyString
  | String c (String d r) =>
      match hex_of c, hex_of d, unhexlify r with
      | Some hi, Some lo, Some bytes => Some (String (ascii_of_nat (16 * hi + lo)) bytes)
      | _, _, _ => None
      end
  | String _ EmptyString => None
  end.

Definition hex_digit (n : nat) : ascii :=
  if (n <? 10)%nat then ascii_of_nat (48 + n) else ascii_of_nat (87 + n).

Fixpoint hexlify (s : string) : string :=
  match s with
  | EmptyString => EmptyString
  | String c r =>
      let n := nat_of_ascii c in
      String (hex_digit (n / 16)) (String (hex_digit (n mod 16)) (hexlify r))
  end.

Definition object_id_of_str (s : string) : option ObjectId :=
  if (String.length s =? 24)%nat then mkObjectId <$> unhexlify s else None.

(** Eleven zero bytes and a counter byte. *)
Definition generate (n : nat) : ObjectId :=
  mkObjectId (String.concat EmptyString (replicate 11 (String zero EmptyString))
              +:+ String (ascii_of_nat n) EmptyString).

Definition str (v : pyval) : string :=
  match v with
  | PNone => "None"
  | PInt n => pretty n
  | PStr s => s
  | PInts l => "[" +:+ String.concat ", " (pretty <$> l) +:+ "]"
  | PStrs l => "[" +:+ String.concat ", " ((fun s => "'" +:+ s +:+ "'") <$> l) +:+ "]"
  | POid o => hexlify (binary o)
  end.

Definition equal_on (query d : dict) : bool :=
  bool_decide (map_Forall (fun k v => d !! k = Some v) query).

(** An order on the values of one key: absent first, then by kind. *)
Definition value_leb (a b : option pyval) : bool :=
  match a, b with
  | None, _ => true
  | Some _, None => false
  | Some (PInt m), Some (PInt n) => m <=? n
  | Some (PStr s), Some (PStr t) => bool_decide (String.leb s t = true)
  | Some (POid o), Some (POid q) => bool_decide (String.leb (binary o) (binary q) = true)
  | Some _, Some _ => true
  end.

Fixpoint insert_sorted (le : dict -> dict -> bool) (d : dict) (l : list dict) : list dict :=
  match l with
  | [] => [d]
  | x :: r => if le d x then d :: l else x :: insert_sorted le d r
  end.

Definition order_by (key : string) (dir : direction) (l : list dict) : list dict :=
  let le :=
    match dir with
    | ASCENDING => fun a b => value_leb (a !! key) (b !! key)
    | DESCENDING => fun a b => value_leb (b !! key) (a !! key)
    end in
  foldr (insert_sorted le) [] l.

Definition without (projection : gmap string Z) (d : dict) : dict :=
  filter (fun kv => projection !! kv.1 = None) d.

Definition same_id (docs : list dict) (d : dict) : bool :=
  existsb (fun x => bool_decide (x !! "_id" = d !! "_id")) docs.

Definition json_of_value (v : pyval) : jval :=
  match v with
  | PNone => JNull
  | PInt n => JInt n
  | PStr s => JStr s
  | PInts l => JList (JInt <$> l)
  | PStrs l => JList (JStr <$> l)
  | POid o => JObj [("$oid", JStr (hexlify (binary o)))]
  end.

Definition json_of_document (d : dict) : jval :=
  JObj ((fun kv => (kv.1, json_of_value kv.2)) <$> map_to_list d).

(** The pieces of [s] between the occurrences of [sep]. *)
Fixpoint split_on (sep : ascii) (s : string) : list string :=
  match s with
  | EmptyString => [EmptyString]
  | String c r =>
      if Ascii.eqb c sep then EmptyString :: split_on sep r
      else match split_on sep r with
           | h :: t => String c h :: t
           | [] => [String c EmptyString]
           end
  end.

(** The text before the first [sep], and the text after it if there is one. *)
Fixpoint cut_at (sep : ascii) (s : string) : string * option string :=
  match s with
  | EmptyString => (EmptyString, None)
  | String c r =>
      if Ascii.eqb c sep then (EmptyString, Some r)
      else let (name, value) := cut_at sep r in (String c name, value)
  end.

(** [urlparse(full_uri).query]: the text after the first question mark of
    the text before the first hash. *)
Definition query_of (full_uri : string) : string :=
  default EmptyString (cut_at "?" (cut_at "#" full_uri).1).2.

(** [unquote(text.replace('+', ' '))]: a percent sign with two hexadecimal
    digits is the byte they write. *)
Fixpoint unquote_plus (s : string) : string :=
  match s with
  | EmptyString => EmptyString
  | String c r =>
      if Ascii.eqb c "+" then String " " (unquote_plus r)
      else
        match r with
        | String x (String y r') =>
            match Ascii.eqb c "%", hex_of x, hex_of y with
            | true, Some hi, Some lo =>
                String (ascii_of_nat (16 * hi + lo)) (unquote_plus r')
            | _, _, _ => String c (unquote_plus r)
            end
        | _ => String c (unquote_plus r)
        end
  end.

Definition upper_hex_digit (n : nat) : ascii :=
  if (n <? 10)%nat then ascii_of_nat (48 + n) else ascii_of_nat (55 + n).

(** The characters that [quote_plus] leaves as they are: letters, digits
    and [_.-~]. *)
Definition always_safe (c : ascii) : bool :=
  let n := nat_of_ascii c in
  ((48 <=? n)%nat && (n <=? 57)%nat) || ((65 <=? n)%nat && (n <=? 90)%nat) ||
  ((97 <=? n)%nat && (n <=? 122)%nat) ||
  Ascii.eqb c "_" || Ascii.eqb c "." || Ascii.eqb c "-" || Ascii.eqb c "~".

(** [quote_plus(text)]: a space becomes a plus sign, any other byte that is
    not always safe its percent-escape. *)
Fixpoint quote_plus (s : string) : string :=
  match s with
  | EmptyString => EmptyString
  | String c r =>
      if always_safe c then String c (quote_plus r)
      else if Ascii.eqb c " " then String "+" (quote_plus r)
      else
        let n := nat_of_ascii c in
        String "%" (String (upper_hex_digit (n / 16))
                      (String (upper_hex_digit (n mod 16)) (quote_plus r)))
  end.

(** [parsed_result[name].append(value)], or a new entry at the end. *)
Fixpoint add_value (name value : string) (parsed : list (string * list string))
  : list (string * list string) :=
  match parsed with
  | [] => [(name, [value])]
  | (k, vs) :: r =>
      if String.eqb k name then (k, vs ++ [value]) :: r
      else (k, vs) :: add_value name value r
  end.

(** [parse_qs(query)]: the pairs without a value are dropped, the values
    of a name are collected at the place of its first pair. *)
Definition parse_qs (query : string) : list (string * list string) :=
  foldl (fun parsed name_value =>
           match cut_at "=" name_value with
           | (name, Some value) =>
               if String.eqb value EmptyString then parsed
               else add_value (unquote_plus name) (unquote_plus value) parsed
           | (_, None) => parsed
           end)
        [] (split_on "&" query).

(** [parsed[name] = values]: in the place of the name, or at the end. *)
Fixpoint set_values (name : string) (values : list string)
    (parsed : list (string * list string)) : list (string * list string) :=
  match parsed with
  | [] => [(name, values)]
  | (k, vs) :: r =>
      if String.eqb k name then (k, values) :: r
      else (k, vs) :: set_values name values r
  end.

(** [urlencode(query, doseq=True)]: a pair for every value of every name. *)
Definition urlencode (query : list (string * list string)) : string :=
  String.concat "&"
    (query ≫= fun '(k, vs) => (fun v => quote_plus k +:+ "=" +:+ quote_plus v) <$> vs).

(** The query of [full_uri] with its [page] parameter set to [n]. Text is
    taken as its UTF-8 bytes. *)
Definition page_query (full_uri : string) (n : Z) : string :=
  urlencode (set_values "page" [pretty n] (parse_qs (query_of full_uri))).

#[export] Instance libs : Libraries := {|
  py_int := decimal_int;
  decode_utf8 := fun s => if is_ascii s then Some s else None;
  ObjectId_of_str := object_id_of_str;
  py_str := str;
  ObjectId_generate := generate;
  matches := equal_on;
  sort_docs := order_by;
  project := without;
  duplicate_key := same_id;
  bson_to_json := json_of_document;
  encode_page_query := page_query;
|}.

(** A collection of [n] documents [{"_id": ObjectId, "n": i}]. *)
Definition numbered (n : nat) : list dict :=
  (fun i => {["_id" := POid (generate i); "n" := PInt (Z.of_nat i)]} : dict) <$> seq 0 n.

End Sample.

(** Handlers for the examples: every permission of [permissions] answers
    with its boolean, the authenticator with [authenticated]. *)
Definition sample_permission (allowed : bool) : PermissionClass :=
  mkPermission (fun _ => allowed) (fun _ _ => allowed) (JStr "forbidden").

Definition sample_handler (query : list (string * list string))
    (permissions : list bool) (authenticated : bool) : Handler :=
  mkHandler (mkRequest "/things?x=1" query)
    (mkAuthentication (fun _ => authenticated) (JStr "unauthorized"))
    (sample_permission <$> permissions) [].

(** A permission that allows the requests that give [token] as a value of
    the argument ["token"]. *)
Definition token_permission (token : string) : PermissionClass :=
  mkPermission
    (fun req =>
       existsb (fun item => String.eqb item.1 "token" && bool_decide (token ∈ item.2))
         (query_arguments req))
    (fun _ _ => true) (JStr "token required").

(** A world whose heap holds one filter, at location 0. *)
Definition world_with_filter (query : dict) (docs : list dict) : world :=
  set_heap {[0%nat := query]} (new_world docs (length docs)).

(** ** Definitions used to state the properties *)

(** The query of a call to the driver. *)
Definition event_query (e : event) : option dict :=
  match e with
  | count_documents_call q => Some q
  | to_list_call c => Some (cursor_filter c)
  | find_one_call q _ => Some q
  | update_one_call q _ => Some q
  | update_many_call q _ => Some q
  | delete_one_call q => Some q
  | insert_one_call _ | has_permission_call _ | authenticate_call => None
  end.

(** The first permission class that refuses the request, with its position. *)
Fixpoint first_refusal (req : HTTPServerRequest) (classes : list PermissionClass)
  : option (nat * PermissionClass) :=
  match classes with
  | [] => None
  | c :: rest =>
      if has_permission c req then
        match first_refusal req rest with
        | Some (k, c') => Some (S k, c')
        | None => None
        end
      else Some (0%nat, c)
  end.

Section Statements.
Context {libs : Libraries}.
Import Driver.

(** The value of a filter in the words of the specification: the text is
    split on commas into candidates; if every candidate parses as an
    integer the value is the integer (one candidate) or the list of
    integers, else the original text (one candidate) or list of texts. *)
Definition spec_filter_value (text : string) : pyval :=
  let candidates := PyStr.split_comma text in
  if forallb (fun s => bool_decide (is_Some (py_int s))) candidates then
    match omap py_int candidates with
    | [n] => PInt n
    | ns => PInts ns
    end
  else
    match candidates with
    | [s] => PStr s
    | ss => PStrs ss
    end.

(** The native identifier that a filter value stands for, if any. *)
Definition native_id (v : pyval) : option ObjectId :=
  match v with
  | POid o => Some o
  | PStr s => ObjectId_of_str s
  | _ => None
  end.

(** The filter with a truthy identity replaced by its native identifier. *)
Definition with_native_id (d : dict) : dict :=
  match d !! "_id" with
  | Some v =>
      if truthy v then
        match native_id v with
        | Some o => <["_id" := POid o]> d
        | None => d
        end
      else d
  | None => d
  end.

(** Run from [w] on the filter object [qf], [find], [update] and [delete]
    query the driver with [q] and with nothing else. *)
Definition queries_carry (q : dict) (qf : loc) (w : world) : Prop :=
  (forall many sort_key remove_fields limit_arg,
     exists new,
       events (MotorModelManager.find qf many sort_key remove_fields limit_arg w).2 =
         events w ++ count_documents_call q :: new /\
       Forall (fun e => event_query e = Some q) new) /\
  (forall data,
     events (MotorModelManager.update qf data w).2 =
       events w ++ [update_one_call q {["$set" := data]}]) /\
  events (MotorModelManager.delete qf w).2 = events w ++ [delete_one_call q].

(** Run from [w] on the filter object [qf], the three operations raise [e]
    and leave the world as it was. *)
Definition operations_raise (e : exn) (qf : loc) (w : world) : Prop :=
  (forall many sort_key remove_fields limit_arg,
     MotorModelManager.find qf many sort_key remove_fields limit_arg w = (Raise e, w)) /\
  (forall data, MotorModelManager.update qf data w = (Raise e, w)) /\
  MotorModelManager.delete qf w = (Raise e, w).

(** Run from [w] on the filter object [qf], each of the three operations
    leaves the heap [h]. *)
Definition heap_becomes (h : gmap loc dict) (qf : loc) (w : world) : Prop :=
  (forall many sort_key remove_fields limit_arg,
     heap (MotorModelManager.find qf many sort_key remove_fields limit_arg w).2 = h) /\
  (forall data, heap (MotorModelManager.update qf data w).2 = h) /\
  heap (MotorModelManager.delete qf w).2 = h.

(** The statement on identity conversion as the specification words it: an
    operation on a filter that has the identity key either raises or sends
    only queries whose identity is a native identifier. *)
Definition converted_or_raised {A} (operation : M A) (w : world) : Prop :=
  match operation w with
  | (Raise _, _) => True
  | (Ok _, w') =>
      forall e q, e ∈ drop (length (events w)) (events w') ->
        event_query e = Some q -> exists o, q !! "_id" = Some (POid o)
  end.

(** The statement on the order of the checks as the specification words
    it: when authentication fails the answer is 401 and no permission check
    has been invoked. *)
Definition authentication_first (self : Handler) (w : world) : Prop :=
  authenticate (authentication_class self) (request (MongoAPIMixin.prepared self)) = false ->
  status (MongoAPIMixin.prepare self w).2 = 401 /\
  forall position,
    has_permission_call position ∉
      drop (length (events w)) (events (MongoAPIMixin.prepare self w).2).

(** The statement on out-of-range pages as the specification words it: the
    list request is answered with an empty list of results. *)
Definition answered_without_results (self : Handler) (w : world) : Prop :=
  exists count next previous,
    (execute self ModelAPIView.list w).1 =
      Responded 200
        (written w ++
         [JObj [("count", count); ("next", next); ("previous", previous);
                ("results", JList [])]]).

(** The statement that the navigation of a list response is that of page 1
    whatever the request is: the request is answered, the link to the next
    page is to page 2 when the total exceeds the page size [ps], and there
    is no link to a previous page. *)
Definition navigation_of_page_1 (self : Handler) (ps : Z) (w : world) : Prop :=
  exists count results,
    (execute self ModelAPIView.list w).1 =
      Responded 200
        (written w ++
         [JObj [("count", JInt count);
                ("next", if ps <? count
                         then JStr (MongoAPIMixin.page_link (uri (request self)) 2)
                         else JNull);
                ("previous", JNull);
                ("results", results)]]).

End Statements.

(** ** The rest of the handlers

    [check_object_permissions], [validate_body_data], [retrieve] and [get]
    of [contrib/base/handlers.py]. *)

(** Python's truth test on JSON data: [None], [0], [''], [[]] and [{}] are
    false. *)
Definition truthy_json (j : jval) : bool :=
  match j with
  | JNull => false
  | JInt n => negb (Z.eqb n 0)
  | JStr s => negb (String.eqb s EmptyString)
  | JList l => negb (Nat.eqb (length l) 0)
  | JObj o => negb (Nat.eqb (length o) 0)
  end.

(** What [validate_body_data] reads of the model class: the names of
    [model.fields] and [model.get_protected_fields()]. *)
Record ModelClass := mkModelClass {
  fields : list string;
  get_protected_fields : list string;
}.

Module Requests.
Import MongoAPIMixin.
Section Defs.
Context {libs : Libraries}.
Variable self : Handler.

(** The loop of [check_object_permissions]. *)
Fixpoint check_object_permissions_from (classes : list PermissionClass) (obj : jval)
  : M unit :=
  match classes with
  | [] => ret tt
  | permission_class :: rest =>
      if negb (has_object_permission permission_class (request self) obj)
      then json_response (message permission_class) 403
      else check_object_permissions_from rest obj
  end.

Definition check_object_permissions (obj : jval) : M unit :=
  check_object_permissions_from (permissions_classes self) obj.

(** [validate_body_data]: [data] is the JSON object of the request body, as
    [get_body_data] returns it. [json_response] raises, so the [raise] that
    follows each call of it is never reached. *)
Definition validate_body_data (model : ModelClass) (data : list (string * jval))
  : M unit :=
  let model_attrs := fields model in
  let model_protected_attrs := get_protected_fields model in
  let data_fields := data.*1 in
  let model_fields := model_attrs in
  let has_right_fields :=
    forallb (fun field => bool_decide (field ∈ model_fields)) data_fields in
  let has_protected_fields :=
    existsb (fun field => bool_decide (field ∈ model_protected_attrs)) data_fields in
  do (if negb has_right_fields
      then json_response
             (JObj [("error", JList [JStr "Campo(s) não existente(s) no modelo."])]) 400
      else ret tt) in
  if has_protected_fields
  then json_response
         (JObj [("error",
                 JList [JStr "Não são permitidas alterações de campos protegidos."])]) 400
  else ret tt.

(** [retrieve]: [lookup_arg] is [self.lookup_arg], which [get] sets; the
    argument [object_id] is not used. *)
Definition retrieve (lookup_arg : pyval) (object_id : pyval) : M unit :=
  let* query_filter := gets query_filter in
  let* d := deref query_filter in
  do assign query_filter (<["_id" := lookup_arg]> d) in
  let* queryset := get_queryset self false in
  let response := process_response queryset in
  if negb (truthy_json response) then
    json_response (JObj [("error", JList [JStr "Registro não encontrado."])]) 404
  else
    json_response response 200.

(** The call of [self.retrieve] with the positional arguments [args] and
    the keyword arguments [kwargs]; the method is declared as
    [retrieve(self, object_id)]: a keyword that is not a parameter, a
    positional argument too many, a parameter given twice or not at all
    raise [TypeError]. *)
Definition bind_retrieve (args : list pyval) (kwargs : dict) : result pyval :=
  if bool_decide (dom kwargs ⊆ ({["object_id"]} : gset string)) then
    match args, kwargs !! "object_id" with
    | [object_id], None => Ok object_id
    | [], Some object_id => Ok object_id
    | _, _ => Raise TypeError
    end
  else Raise TypeError.

(** [get]: both views are called with the arguments of [get]; [list] is
    declared with starred parameters and takes any arguments. *)
Definition get (args : list pyval) (kwargs : dict) : M unit :=
  let lookup_arg := default PNone (kwargs !! "id") in
  if truthy lookup_arg then
    let* object_id := lift (bind_retrieve args kwargs) in
    retrieve lookup_arg object_id
  else ModelAPIView.list self.

End Defs.
End Requests.

Section StatementsMore.
Context {libs : Libraries}.

(** A pair of the request whose last value decodes. *)
Definition decodable (item : string * list string) : Prop :=
  exists raw text, last item.2 = Some raw /\ decode_utf8 raw = Some text.

(** A pair of the request as [list_data.pop()] leaves it: without the last
    of its values. *)
Definition popped (item : string * list string) : string * list string :=
  (item.1, removelast item.2).

(** The values that query-string parsing builds: an integer, a text, or a
    list of at least two integers or two texts. *)
Definition parsed_value (v : pyval) : Prop :=
  match v with
  | PInt _ | PStr _ => True
  | PInts l => (2 <= length l)%nat
  | PStrs l => (2 <= length l)%nat
  | PNone | POid _ => False
  end.

(** The rows that [paginate_response] hands to the paginator: the list, or
    the single document in a list. *)
Definition rows_of (data : jval) : list jval :=
  match data with
  | JList l => l
  | _ => [data]
  end.

End StatementsMore.

(** Unfolding the monad's operations, in the goal or in a hypothesis. *)
Ltac run :=
  unfold bind, emit, modify, gets, ret, raise, lift, deref, assign; simpl.
Ltac run_in H :=
  unfold bind, emit, modify, gets, ret, raise, lift, deref, assign in H; simpl in H.

(** * Properties *)

(** ** The text operations on small inputs *)

Example split_comma_three : PyStr.split_comma "1,2,3" = ["1"; "2"; "3"].
Proof. reflexivity. Qed.

Example split_comma_no_comma : PyStr.split_comma "abc" = ["abc"].
Proof. reflexivity. Qed.

Example split_comma_empty_pieces : PyStr.split_comma ",a," = [EmptyString; "a"; EmptyString].
Proof. reflexivity. Qed.

Example replace_dunder_nested : PyStr.replace_dunder "user__address__city" = "user.address.city".
Proof. reflexivity. Qed.

Example replace_dunder_three_underscores : PyStr.replace_dunder "a___b" = "a._b".
Proof. reflexivity. Qed.

Example before_query_of_uri : PyStr.before_query "/things?page=3&x=1" = "/things".
Proof. reflexivity. Qed.

(** ** Query-string parsing *)

Section QueryArgsSpec.
Context {libs : Libraries}.

Lemma int_list_all (args : list string) :
  forallb (fun s => bool_decide (is_Some (py_int s))) args = true ->
  int_list args = Ok (omap py_int args).
Proof.
  induction args as [|arg rest IH]; simpl; [done|].
  intros [Harg Hrest]%andb_prop.
  apply bool_decide_eq_true in Harg as [n Hn].
  rewrite Hn, (IH Hrest). done.
Qed.

Lemma int_list_some_fails (args : list string) :
  forallb (fun s => bool_decide (is_Some (py_int s))) args = false ->
  int_list args = Raise ValueError.
Proof.
  induction args as [|arg rest IH]; simpl; [done|].
  destruct (py_int arg) as [n|] eqn:Hn; simpl; [|done].
  intros Hrest. rewrite (IH Hrest). done.
Qed.

Lemma query_arg_value_spec (text : string) :
  query_arg_value (PyStr.split_comma text) = spec_filter_value text.
Proof.
  unfold query_arg_value, spec_filter_value.
  destruct (forallb _ (PyStr.split_comma text)) eqn:Hall.
  - rewrite (int_list_all _ Hall).
    by destruct (omap py_int (PyStr.split_comma text)) as [|? [|? ?]].
  - by rewrite (int_list_some_fails _ Hall).
Qed.

(** Every entry of the filter comes from a pair of the request. *)
Lemma extract_loop_sound (items : list (string * list string)) (acc d : dict) :
  (extract_loop items acc).1 = Ok d ->
  forall k v, d !! k = Some v ->
    acc !! k = Some v \/
    exists key values raw text,
      (key, values) ∈ items /\ PyStr.replace_dunder key = k /\
      last values = Some raw /\ decode_utf8 raw = Some text /\
      v = spec_filter_value text.
Proof.
  revert acc. induction items as [|[key values] rest IH]; intros acc; simpl.
  - intros [= ->] k v Hk. by left.
  - destruct (last values) as [raw|] eqn:Hraw; [|done].
    destruct (decode_utf8 raw) as [text|] eqn:Htext; [|done].
    simpl. intros Hloop k v Hk.
    destruct (IH _ Hloop k v Hk) as [Hacc|(key' & values' & raw' & text' & Hin & ?)].
    + rewrite lookup_insert in Hacc. case_decide as Hkey.
      * right. exists key, values, raw, text. simplify_eq.
        rewrite query_arg_value_spec. repeat split; auto. apply list_elem_of_here.
      * by left.
    + right. exists key', values', raw', text'. split; [|done].
      by apply list_elem_of_further.
Qed.

Lemma extract_query_args_loop (items : list (string * list string)) :
  extract_query_args items = extract_loop items ∅.
Proof. by destruct items. Qed.

(** The loop returns when every last value decodes, with the translated
    keys added to the filter. *)
Lemma extract_loop_returns (items : list (string * list string)) (acc : dict) :
  Forall decodable items ->
  exists d, (extract_loop items acc).1 = Ok d /\
            dom d = dom acc ∪ list_to_set (PyStr.replace_dunder <$> items.*1).
Proof.
  intros Hitems. revert acc.
  induction Hitems as [|[key values] rest (raw & text & Hraw & Htext) _ IH]; intros acc.
  - exists acc. split; [done|]. simpl. set_solver.
  - simpl in *. rewrite Hraw, Htext. simpl.
    destruct (IH (<[PyStr.replace_dunder key :=
                     query_arg_value (PyStr.split_comma text)]> acc)) as (d & Hd & Hdom).
    exists d. split; [done|]. rewrite Hdom, dom_insert_L. set_solver.
Qed.

(** A key that no pair translates to is left as it was. *)
Lemma extract_loop_keeps (items : list (string * list string)) (acc d : dict)
    (k : string) :
  (extract_loop items acc).1 = Ok d ->
  (forall key values, (key, values) ∈ items -> PyStr.replace_dunder key ≠ k) ->
  d !! k = acc !! k.
Proof.
  revert acc. induction items as [|[key values] rest IH]; intros acc; simpl.
  - by intros [= ->].
  - destruct (last values) as [raw|]; [|done].
    destruct (decode_utf8 raw) as [text|]; [|done].
    simpl. intros Hloop Hother. rewrite (IH _ Hloop).
    + apply lookup_insert_ne. apply (Hother key values), list_elem_of_here.
    + intros key' values' Hin. apply (Hother key' values').
      by apply list_elem_of_further.
Qed.

(** The entry of a pair after which no pair translates to the same key. *)
Lemma extract_loop_lookup (items : list (string * list string)) (acc d : dict)
    (i : nat) (key : string) (values : list string) :
  (extract_loop items acc).1 = Ok d ->
  items !! i = Some (key, values) ->
  (forall j key' values', (i < j)%nat -> items !! j = Some (key', values') ->
     PyStr.replace_dunder key' ≠ PyStr.replace_dunder key) ->
  exists raw text,
    last values = Some raw /\ decode_utf8 raw = Some text /\
    d !! PyStr.replace_dunder key = Some (spec_filter_value text).
Proof.
  revert acc i. induction items as [|[key0 values0] rest IH]; intros acc i; [done|].
  simpl.
  destruct (last values0) as [raw|] eqn:Hraw; [|done].
  destruct (decode_utf8 raw) as [text|] eqn:Htext; [|done].
  simpl. intros Hloop Hi Hlater. destruct i as [|i]; simpl in Hi.
  - injection Hi as -> ->. exists raw, text. split; [done|]. split; [done|].
    rewrite (extract_loop_keeps _ _ _ _ Hloop).
    + by rewrite lookup_insert_eq, query_arg_value_spec.
    + intros key' values' [j Hj]%list_elem_of_lookup.
      apply (Hlater (S j) key' values'); [lia|done].
  - apply (IH _ i Hloop Hi). intros j key' values' Hij Hj.
    apply (Hlater (S j) key' values'); [lia|done].
Qed.

(** When the loop returns, every pair of the request has lost its last
    value. *)
Lemma extract_loop_pops (items : list (string * list string)) (acc d : dict) :
  (extract_loop items acc).1 = Ok d -> (extract_loop items acc).2 = popped <$> items.
Proof.
  revert acc. induction items as [|[key values] rest IH]; intros acc; simpl; [done|].
  destruct (last values) as [raw|]; [|done].
  destruct (decode_utf8 raw) as [text|]; [|done].
  simpl. intros Hloop. by rewrite (IH _ Hloop).
Qed.

End QueryArgsSpec.

Lemma replace_dunder_pair (s : string) :
  PyStr.has_dunder (PyStr.replace_dunder s) = false /\
  forall c, PyStr.has_dunder (PyStr.replace_dunder (String c s)) = false.
Proof.
  induction s as [|d r [IH1 IH2]].
  - split; [done|]. intros c. done.
  - split; [apply IH2|]. intros c.
    change (PyStr.replace_dunder (String c (String d r))) with
      (if Ascii.eqb c "_"%char && Ascii.eqb d "_"%char
       then String "."%char (PyStr.replace_dunder r)
       else String c (PyStr.replace_dunder (String d r))).
    destruct (Ascii.eqb c "_" && Ascii.eqb d "_") eqn:Hcd.
    + simpl. destruct (PyStr.replace_dunder r); [done|]. 
      simpl in IH1 |- *. exact IH1.
    + specialize (IH2 d).
      destruct r as [|e r'].
      * simpl. rewrite Hcd. done.
      * change (PyStr.replace_dunder (String d (String e r'))) with
          (if Ascii.eqb d "_"%char && Ascii.eqb e "_"%char
           then String "."%char (PyStr.replace_dunder r')
           else String d (PyStr.replace_dunder (String e r'))) in IH2 |- *.
        destruct (Ascii.eqb d "_" && Ascii.eqb e "_").
        -- change (PyStr.has_dunder (String c (String "." (PyStr.replace_dunder r'))))
             with ((Ascii.eqb c "_" && Ascii.eqb "." "_") || PyStr.has_dunder (String "." (PyStr.replace_dunder r'))).
           rewrite IH2. change (Ascii.eqb "." "_") with false. by rewrite andb_false_r.
        -- change (PyStr.has_dunder (String c (String d (PyStr.replace_dunder (String e r')))))
             with ((Ascii.eqb c "_" && Ascii.eqb d "_") || PyStr.has_dunder (String d (PyStr.replace_dunder (String e r')))).
           by rewrite IH2, Hcd.
Qed.

(** ** The manager *)

Section ManagerSpec.
Context {libs : Libraries}.
Import Driver MotorModelManager.

Lemma convert_falsy (qf : loc) (w : world) :
  truthy (default PNone ((heap w !!! qf) !! "_id")) = false ->
  _convert_id_field qf w = (Ok qf, w).
Proof.
  intros Hv. unfold _convert_id_field, bind, deref, gets. simpl.
  rewrite Hv. done.
Qed.

Lemma convert_native (qf : loc) (w : world) (v : pyval) (o : ObjectId) :
  (heap w !!! qf) !! "_id" = Some v -> truthy v = true -> native_id v = Some o ->
  _convert_id_field qf w =
    (Ok qf, set_heap (<[qf := <["_id" := POid o]> (heap w !!! qf)]> (heap w)) w).
Proof.
  intros Hv Ht Ho. unfold _convert_id_field, bind, deref, gets. simpl.
  rewrite Hv. simpl. rewrite Ht.
  destruct v; simpl in Ho; try discriminate; simplify_eq; simpl.
  - rewrite Ho. done.
  - done.
Qed.

Lemma convert_invalid (qf : loc) (w : world) (s : string) :
  (heap w !!! qf) !! "_id" = Some (PStr s) -> s ≠ EmptyString -> ObjectId_of_str s = None ->
  _convert_id_field qf w = (Raise (InvalidId s), w).
Proof.
  intros Hv Hs Ho. unfold _convert_id_field, bind, deref, gets. simpl.
  rewrite Hv. simpl.
  destruct (String.eqb_spec s EmptyString); [done|]. simpl. rewrite Ho. done.
Qed.

(** The conversion returns the filter it was given; it changes nothing
    but the heap, and nothing at all when it raises. *)
Lemma convert_frame (qf : loc) (w : world) :
  let r := _convert_id_field qf w in
  documents r.2 = documents w /\ events r.2 = events w /\
  manager_skip r.2 = manager_skip w /\ manager_limit r.2 = manager_limit w /\
  page_size r.2 = page_size w /\ written r.2 = written w /\ status r.2 = status w /\
  match r.1 with
  | Ok l => l = qf
  | Raise _ => r.2 = w
  end.
Proof.
  unfold _convert_id_field, bind, deref, gets. simpl.
  destruct (truthy _); [|done].
  destruct (default PNone _); simpl; try done.
  destruct (ObjectId_of_str s); done.
Qed.

Lemma find_after_conversion (qf : loc) (many : bool) (sort_key : option (string * direction))
    (remove_fields : list string) (limit_arg : pyval) (w w1 : world) :
  _convert_id_field qf w = (Ok qf, w1) ->
  let q := heap w1 !!! qf in
  let r := find qf many sort_key remove_fields limit_arg w in
  heap r.2 = heap w1 /\ documents r.2 = documents w1 /\
  (exists new, events r.2 = events w1 ++ count_documents_call q :: new /\
               Forall (fun e => event_query e = Some q) new) /\
  (forall qs, r.1 = Ok qs ->
     total qs = Z.of_nat (length (List.filter (matches q) (documents w1)))).
Proof.
  intros Hc q r. subst r.
  destruct (find _ _ _ _ _ _) as [r w2] eqn:Hf.
  unfold find, _parse_query_filter in Hf. unfold bind at 1 2 in Hf. rewrite Hc in Hf.
  unfold count_documents, to_list, find_one, skip, limit, collection_find, sort in Hf.
  run_in Hf. fold q in Hf.
  repeat case_match; simplify_eq; simpl.
  all: repeat split; try done.
  all: try by exists [].
  all: try by intros ? [= <-].
  all: rewrite <- app_assoc; simpl; eexists; split; [reflexivity|by repeat constructor].
Qed.

Lemma update_after_conversion (qf : loc) (data : dict) (w w1 : world) :
  _convert_id_field qf w = (Ok qf, w1) ->
  let q := heap w1 !!! qf in
  let matching := take 1 (List.filter (matches q) (documents w1)) in
  update qf data w =
    (Ok (mkUpdateResult (length matching)
           (length (List.filter (modifies {["$set" := data]}) matching))),
     set_documents (update_first q {["$set" := data]} (documents w1))
       (set_events (events w1 ++ [update_one_call q {["$set" := data]}]) w1)).
Proof.
  intros Hc. unfold update. unfold bind at 1. rewrite Hc.
  unfold update_one. run.
  rewrite map_size_singleton. done.
Qed.

Lemma delete_after_conversion (qf : loc) (w w1 : world) :
  _convert_id_field qf w = (Ok qf, w1) ->
  let q := heap w1 !!! qf in
  MotorModelManager.delete qf w =
    (Ok (mkDeleteResult (length (take 1 (List.filter (matches q) (documents w1))))),
     set_documents (remove_first q (documents w1))
       (set_events (events w1 ++ [delete_one_call q]) w1)).
Proof.
  intros Hc. unfold MotorModelManager.delete. unfold bind at 1. rewrite Hc.
  unfold delete_one. run. done.
Qed.

Lemma operation_raises (qf : loc) (e : exn) (w w1 : world) :
  _convert_id_field qf w = (Raise e, w1) ->
  (forall many sort_key remove_fields limit_arg,
     find qf many sort_key remove_fields limit_arg w = (Raise e, w1)) /\
  (forall data, update qf data w = (Raise e, w1)) /\
  MotorModelManager.delete qf w = (Raise e, w1).
Proof.
  intros Hc. repeat split; intros.
  - unfold find, _parse_query_filter. unfold bind at 1 2. by rewrite Hc.
  - unfold update. unfold bind at 1. by rewrite Hc.
  - unfold MotorModelManager.delete. unfold bind at 1. by rewrite Hc.
Qed.

End ManagerSpec.

(** ** The manager: the properties of the specification *)

Section ManagerProperties.
Context {libs : Libraries}.
Import Driver MotorModelManager.

(** A conversion that returns leaves the filter with its native identity;
    the collection and the calls made are as before. *)
Lemma convert_result (qf l : loc) (w w1 : world) :
  _convert_id_field qf w = (Ok l, w1) ->
  l = qf /\ heap w1 !!! qf = with_native_id (heap w !!! qf) /\
  documents w1 = documents w /\ events w1 = events w.
Proof.
  intros Hc. unfold with_native_id.
  destruct ((heap w !!! qf) !! "_id") as [v|] eqn:Hv.
  - destruct (truthy v) eqn:Ht.
    + destruct (native_id v) as [o|] eqn:Ho.
      * rewrite (convert_native qf w v o Hv Ht Ho) in Hc. simplify_eq. simpl.
        by rewrite lookup_total_insert_eq.
      * unfold _convert_id_field in Hc. run_in Hc. rewrite Hv in Hc. simpl in Hc.
        rewrite Ht in Hc. destruct v; simpl in *; simplify_eq.
        rewrite Ho in Hc. simplify_eq.
    + rewrite convert_falsy in Hc by (by rewrite Hv). by simplify_eq.
  - rewrite convert_falsy in Hc by (by rewrite Hv). by simplify_eq.
Qed.

Lemma queries_carry_after (qf : loc) (w w1 : world) :
  _convert_id_field qf w = (Ok qf, w1) ->
  queries_carry (heap w1 !!! qf) qf w.
Proof.
  intros Hc. destruct (convert_result _ _ _ _ Hc) as (_ & _ & _ & Hev).
  repeat split; intros.
  - destruct (find_after_conversion qf many sort_key remove_fields limit_arg w w1 Hc)
      as (_ & _ & Hnew & _).
    by rewrite <- Hev.
  - rewrite (update_after_conversion qf data w w1 Hc). simpl. by rewrite Hev.
  - rewrite (delete_after_conversion qf w w1 Hc). simpl. by rewrite Hev.
Qed.

Lemma heap_becomes_after (qf : loc) (w w1 : world) :
  _convert_id_field qf w = (Ok qf, w1) ->
  heap_becomes (heap w1) qf w.
Proof.
  intros Hc. repeat split; intros.
  - by destruct (find_after_conversion qf many sort_key remove_fields limit_arg w w1 Hc)
      as (? & _).
  - by rewrite (update_after_conversion qf data w w1 Hc).
  - by rewrite (delete_after_conversion qf w w1 Hc).
Qed.

(** C1, as the code has it: [update] never reaches the many-document
    update. Whatever the payload, either the identity conversion raises and
    nothing is sent, or exactly one call is made, the single-document
    update with the payload under ["$set"]: the length tested is that of
    the update document, which has the one key ["$set"]. *)
Theorem update_issues_one_single_update (qf : loc) (data : dict) (w : world) :
  (exists e, update qf data w = (Raise e, w)) \/
  (exists result q,
     (update qf data w).1 = Ok result /\
     events (update qf data w).2 = events w ++ [update_one_call q {["$set" := data]}]).
Proof.
  destruct (_convert_id_field qf w) as [[l|e] w1] eqn:Hc.
  - right. destruct (convert_result _ _ _ _ Hc) as (-> & _ & _ & Hev).
    rewrite (update_after_conversion qf data w w1 Hc). simpl.
    eexists _, _. split; [reflexivity|]. by rewrite Hev.
  - left. exists e. pose proof (convert_frame qf w) as Hf. rewrite Hc in Hf. simpl in Hf.
    destruct Hf as (_ & _ & _ & _ & _ & _ & _ & ->).
    by apply (operation_raises qf e w w).
Qed.

(** C6, amended: [find], [update] and [delete] convert a truthy textual
    identity of the filter to the native identifier before they query, and
    a text that does not parse raises [InvalidId], which reaches the caller
    with nothing sent and nothing changed; a falsy identity, such as the
    empty text, is not converted and raises nothing. *)
Theorem identity_converted_when_truthy (qf : loc) (w : world) (v : pyval) :
  (heap w !!! qf) !! "_id" = Some v ->
  (truthy v = false -> queries_carry (heap w !!! qf) qf w) /\
  (forall s o, v = PStr s -> s ≠ EmptyString -> ObjectId_of_str s = Some o ->
     queries_carry (<["_id" := POid o]> (heap w !!! qf)) qf w) /\
  (forall s, v = PStr s -> s ≠ EmptyString -> ObjectId_of_str s = None ->
     operations_raise (InvalidId s) qf w).
Proof.
  intros Hv. split; [|split].
  - intros Ht. pose proof (convert_falsy qf w) as Hc.
    rewrite Hv in Hc. by apply (queries_carry_after qf w w (Hc Ht)).
  - intros s o -> Hs Ho.
    assert (Ht : truthy (PStr s) = true) by (simpl; by destruct (String.eqb_spec s EmptyString)).
    pose proof (queries_carry_after _ _ _ (convert_native qf w (PStr s) o Hv Ht Ho)) as Hq.
    simpl in Hq. by rewrite lookup_total_insert_eq in Hq.
  - intros s -> Hs Ho.
    by apply (operation_raises qf _ w w (convert_invalid qf w s Hv Hs Ho)).
Qed.

(** C7: [create] takes the client's ['_id'] out of the storage
    representation before it inserts, so the stored identity is the
    generated one; the mapping returned is the storage representation with
    the generated identity as text. Nothing is returned when the insertion
    violates a unique index. *)
Theorem create_stamps_generated_identity (model_object : Model) (w : world) :
  let data := base.delete "_id" (to_primitive model_object) in
  let oid := ObjectId_generate (generated w) in
  let stored := <["_id" := POid oid]> data in
  data !! "_id" = None /\
  exists w',
    events w' = events w ++ [insert_one_call data] /\
    if duplicate_key (documents w) stored
    then create model_object w = (Raise DuplicateKeyError, w') /\
         documents w' = documents w
    else create model_object w = (Ok (<["_id" := PStr (py_str (POid oid))]> data), w') /\
         documents w' = documents w ++ [stored].
Proof.
  intros data oid stored. split; [apply lookup_delete_eq|].
  unfold create, insert_one. run. rewrite lookup_delete_eq. simpl.
  fold data. fold oid. fold stored.
  destruct (duplicate_key (documents w) stored); simpl.
  - eexists. split; [|split; [reflexivity|]]; done.
  - eexists. split; [|split].
    2: { unfold stored. rewrite lookup_insert_eq. simpl. rewrite insert_insert_eq.
         reflexivity. }
    all: done.
Qed.

(** C8: the [total] of the container that [find] returns is the number of
    documents that match the filter (with its identity converted), whatever
    the manager's [skip] and [limit] and the [limit] argument are. *)
Theorem find_total_counts_matching (qf : loc) (many : bool)
    (sort_key : option (string * direction)) (remove_fields : list string)
    (limit_arg self_skip self_limit : pyval) (w w' : world) (queryset : Queryset) :
  find qf many sort_key remove_fields limit_arg
    (set_manager_skip self_skip (set_manager_limit self_limit w)) = (Ok queryset, w') ->
  total queryset =
    Z.of_nat (length (List.filter (matches (with_native_id (heap w !!! qf))) (documents w))).
Proof.
  set (w0 := set_manager_skip self_skip (set_manager_limit self_limit w)).
  intros Hfind.
  destruct (_convert_id_field qf w0) as [[l|e] w1] eqn:Hc.
  - destruct (convert_result _ _ _ _ Hc) as (-> & Hq & Hdocs & _).
    destruct (find_after_conversion qf many sort_key remove_fields limit_arg w0 w1 Hc)
      as (_ & _ & _ & Htotal).
    rewrite (Htotal queryset) by (by rewrite Hfind).
    by rewrite Hq, Hdocs.
  - destruct (operation_raises qf e w0 w1 Hc) as (Hraise & _).
    by rewrite Hraise in Hfind.
Qed.

(** C10: [find], [update] and [delete] leave the caller's filter object
    with the native identifier in place of a truthy textual identity; a
    filter whose identity is falsy is left as it is and is the query sent. *)
Theorem filter_converted_in_place (qf : loc) (w : world) (d : dict) :
  heap w !! qf = Some d ->
  (forall s o, d !! "_id" = Some (PStr s) -> s ≠ EmptyString -> ObjectId_of_str s = Some o ->
     heap_becomes (<[qf := <["_id" := POid o]> d]> (heap w)) qf w) /\
  (truthy (default PNone (d !! "_id")) = false ->
     heap_becomes (heap w) qf w /\ queries_carry d qf w).
Proof.
  intros Hd. pose proof (lookup_total_correct _ _ _ Hd) as Hq. split.
  - intros s o Hv Hs Ho.
    assert (Ht : truthy (PStr s) = true) by (simpl; by destruct (String.eqb_spec s EmptyString)).
    rewrite <- Hq in Hv.
    pose proof (convert_native qf w (PStr s) o Hv Ht Ho) as Hc.
    rewrite Hq in Hc. by apply (heap_becomes_after _ _ _ Hc).
  - intros Ht. rewrite <- Hq in Ht. pose proof (convert_falsy qf w Ht) as Hc.
    split; [by apply (heap_becomes_after _ _ _ Hc)|].
    rewrite <- Hq. by apply (queries_carry_after _ _ _ Hc).
Qed.

End ManagerProperties.

(** ** The request pipeline *)

Section HandlerSpec.
Context {libs : Libraries}.
Import Driver MotorModelManager MongoAPIMixin.

(** The cursor's ordering keeps the number of documents. *)
Hypothesis sort_docs_length :
  forall key dir (l : list dict), length (sort_docs key dir l) = length l.

Lemma world_eta (w : world) :
  mkWorld (heap w) (documents w) (generated w) (manager_skip w) (manager_limit w)
    (query_filter w) (page w) (page_size w) (written w) (status w) (events w) = w.
Proof. by destruct w. Qed.

Lemma check_permissions_from_spec (self : Handler) (classes : list PermissionClass)
    (position : nat) (w : world) :
  check_permissions_from self position classes w =
    match first_refusal (request self) classes with
    | Some (k, c) =>
        (Raise Finish,
         set_status 403
           (set_written (written w ++ [message c])
              (set_events
                 (events w ++ (has_permission_call <$> seq position (S k))) w)))
    | None =>
        (Ok tt,
         set_events (events w ++ (has_permission_call <$> seq position (length classes))) w)
    end.
Proof.
  revert position w. induction classes as [|c rest IH]; intros position w; simpl.
  - unfold ret, set_events. rewrite app_nil_r. by rewrite world_eta.
  - unfold bind at 1. unfold emit at 1, modify. simpl.
    destruct (has_permission c (request self)); simpl.
    + rewrite IH. simpl.
      destruct (first_refusal _ _) as [[k c']|] eqn:Hr.
      * unfold set_status, set_written, set_events; simpl. by rewrite <- app_assoc.
      * unfold set_events; simpl. by rewrite <- app_assoc.
    + unfold json_response. run. done.
Qed.

Lemma first_refusal_none (req : HTTPServerRequest) (classes : list PermissionClass) :
  first_refusal req classes = None <->
  forallb (fun c => has_permission c req) classes = true.
Proof.
  induction classes as [|c rest IH]; simpl; [done|].
  destruct (has_permission c req); simpl; [|done].
  rewrite <- IH. by destruct (first_refusal req rest) as [[? ?]|].
Qed.

(** What [extract_query_args] changes of the handler is its request's
    arguments. *)
Lemma prepared_request (self : Handler) (args : dict) :
  (extract_query_args (query_arguments (request self))).1 = Ok args ->
  uri (request (prepared self)) = uri (request self) /\
  query_arguments (request (prepared self)) = popped <$> query_arguments (request self).
Proof.
  intros Hargs. split; [done|]. unfold prepared. simpl.
  rewrite extract_query_args_loop in Hargs |- *. by apply (extract_loop_pops _ _ args).
Qed.

(** The two checks of [prepare], in the order in which it runs them. *)
Lemma checks_spec (self : Handler) (w : world) :
  (do check_permissions self in check_authentication self) w =
    match first_refusal (request self) (permissions_classes self) with
    | Some (k, c) =>
        (Raise Finish,
         set_status 403
           (set_written (written w ++ [message c])
              (set_events (events w ++ (has_permission_call <$> seq 0 (S k))) w)))
    | None =>
        let called :=
          events w ++ (has_permission_call <$> seq 0 (length (permissions_classes self)))
                   ++ [authenticate_call] in
        if authenticate (authentication_class self) (request self)
        then (Ok tt, set_events called w)
        else (Raise Finish,
              set_status 401
                (set_written (written w ++ [unauthorized_message (authentication_class self)])
                   (set_events called w)))
    end.
Proof.
  unfold bind, check_permissions. rewrite check_permissions_from_spec.
  destruct (first_refusal _ _) as [[k c]|]; [done|].
  unfold check_authentication, json_response. run.
  rewrite <- app_assoc.
  by destruct (authenticate _ _).
Qed.

Lemma pop_spec (l : loc) (key : string) (dflt : pyval) (d : dict) (w : world) :
  heap w !! l = Some d ->
  pop l key dflt w =
    (Ok (default dflt (d !! key)), set_heap (<[l := base.delete key d]> (heap w)) w).
Proof.
  intros Hl. unfold pop. run. rewrite (lookup_total_correct _ _ _ Hl).
  destruct (d !! key) as [v|] eqn:Hk; simpl; [done|].
  rewrite delete_id by done. rewrite insert_id by done.
  unfold set_heap. by rewrite world_eta.
Qed.

(** [prepare], once the query arguments are parsed: the filter is a new
    object, without the two reserved keys; then the checks run. *)
Lemma prepare_spec (self : Handler) (args : dict) (w : world) :
  (extract_query_args (query_arguments (request self))).1 = Ok args ->
  let l := fresh (dom (heap w)) in
  let p := default (PInt 0) (args !! "page") in
  let ps := default (page_size w) (args !! "page_size") in
  prepare self w =
    (do check_permissions (prepared self) in check_authentication (prepared self))
      (mkWorld (<[l := base.delete "page_size" (base.delete "page" args)]> (heap w))
         (documents w) (generated w) p ps l p ps (written w) (status w) (events w)).
Proof.
  intros Hargs l p ps. unfold prepare. cbv zeta. fold (prepared self).
  unfold bind at 1. unfold lift. rewrite Hargs.
  unfold bind at 1. unfold alloc. fold l.
  unfold bind at 1. unfold modify at 1.
  unfold bind at 1.
  rewrite (pop_spec l "page" (PInt 0) args) by (simpl; apply lookup_insert_eq).
  unfold bind at 1. unfold modify at 1.
  unfold bind at 1. unfold gets at 1.
  unfold bind at 1. simpl.
  rewrite (pop_spec l "page_size" _ (base.delete "page" args)) by (simpl; apply lookup_insert_eq).
  unfold bind at 1. unfold modify at 1.
  unfold bind at 1. unfold modify at 1.
  unfold bind at 1. unfold modify at 1.
  simpl. rewrite !insert_insert_eq.
  rewrite lookup_delete_ne by done. done.
Qed.

Lemma cursor_documents_none (c : Cursor) (docs : list dict) :
  length (List.filter (matches (cursor_filter c)) docs) = 0%nat ->
  cursor_documents c docs = [].
Proof.
  intros Hn. unfold cursor_documents.
  assert (Hs : length (match cursor_sort c with
                       | Some (key, dir) =>
                           sort_docs key dir (List.filter (matches (cursor_filter c)) docs)
                       | None => List.filter (matches (cursor_filter c)) docs
                       end) = 0%nat).
  { destruct (cursor_sort c) as [[key dir]|]; [by rewrite sort_docs_length|done]. }
  apply nil_length_inv in Hs. rewrite Hs. rewrite drop_nil.
  destruct (cursor_limit c =? 0); [done|]. by rewrite take_nil.
Qed.

Lemma cursor_documents_length (c : Cursor) (docs : list dict) :
  0 < cursor_limit c ->
  length (cursor_documents c docs) =
    Nat.min (Z.to_nat (cursor_limit c))
      (length (List.filter (matches (cursor_filter c)) docs) - Z.to_nat (cursor_skip c)).
Proof.
  intros Hl. unfold cursor_documents.
  destruct (Z.eqb_spec (cursor_limit c) 0); [lia|].
  rewrite length_map, length_take, length_drop.
  rewrite Z.abs_eq by lia.
  destruct (cursor_sort c) as [[key dir]|]; [by rewrite sort_docs_length|done].
Qed.

Lemma find_listing (l : loc) (p ps : Z) (remove_fields : list string)
    (key : string * direction) (w w1 : world) :
  _convert_id_field l w = (Ok l, w1) ->
  manager_skip w = PInt p -> 0 <= p ->
  manager_limit w = PInt ps -> 0 < ps ->
  let q := heap w1 !!! l in
  let c := mkCursor q (_parse_remove_fields remove_fields) p ps (Some key) in
  find l true (Some key) remove_fields PNone w =
    (Ok (mkQueryset (JList (bson_to_json <$> cursor_documents c (documents w)))
           (Z.of_nat (length (List.filter (matches q) (documents w))))),
     set_events (events w ++ [count_documents_call q; to_list_call c]) w1).
Proof.
  intros Hc Hskip Hp Hlimit Hps q c.
  pose proof (convert_frame l w) as Hf. rewrite Hc in Hf. simpl in Hf.
  destruct Hf as (Hdocs & Hev & Hs & Hl & _).
  unfold find, _parse_query_filter. unfold bind at 1 2. rewrite Hc.
  unfold count_documents, to_list, skip, limit, collection_find, sort.
  run. fold q. rewrite Hs, Hskip, Hdocs, Hev. simpl.
  destruct (Z.eqb_spec p 0) as [->|Hp0]; simpl.
  - rewrite Hl, Hlimit. simpl. destruct (Z.eqb_spec ps 0); [lia|]. simpl.
    rewrite <- app_assoc, Hdocs. done.
  - destruct (Z.ltb_spec p 0); [lia|]. simpl.
    rewrite Hl, Hlimit. simpl. destruct (Z.eqb_spec ps 0); [lia|]. simpl.
    rewrite <- app_assoc, Hdocs. done.
Qed.

(** The conversion returns when a truthy identity of the filter stands for
    a native identifier. *)
Lemma convert_returns (qf : loc) (w : world) :
  (forall v, (heap w !!! qf) !! "_id" = Some v -> truthy v = true ->
     is_Some (native_id v)) ->
  exists w1, _convert_id_field qf w = (Ok qf, w1).
Proof.
  intros Hid. destruct ((heap w !!! qf) !! "_id") as [v|] eqn:Hv.
  - destruct (truthy v) eqn:Ht.
    + destruct (Hid v eq_refl Ht) as [o Ho]. eexists. by apply (convert_native qf w v o).
    + exists w. apply convert_falsy. by rewrite Hv.
  - exists w. apply convert_falsy. by rewrite Hv.
Qed.

Lemma paginate_first_page (self : Handler) (results : list jval) (n ps : Z) (w : world) :
  page_size w = PInt ps -> 0 < ps -> 0 <= n -> (n = 0 -> results = []) ->
  paginate_response self (mkQueryset (JList results) n) (PInt 1) PNone w =
    (Ok (JObj [("count", JInt n);
               ("next", if ps <? n then JStr (page_link (uri (request self)) 2) else JNull);
               ("previous", JNull);
               ("results", JList results)]), w).
Proof.
  intros Hps Hpos Hn Hzero.
  unfold paginate_response, self_page_size. run. rewrite Hps. simpl.
  unfold paginate_try. simpl. unfold Pagination.page, Pagination.num_pages. simpl.
  destruct (Z.eq_dec n 0) as [->|Hn0].
  - rewrite (Hzero eq_refl).
    replace ((0 + ps - 1) / ps) with 0 by (symmetry; apply Z.div_small; lia).
    simpl. destruct (Z.ltb_spec ps 0); [lia|done].
  - assert (1 <= (n + ps - 1) / ps).
    { apply Z.div_le_lower_bound; lia. }
    destruct (Z.ltb_spec ((n + ps - 1) / ps) 1); [lia|]. simpl.
    unfold Pagination.has_next, Pagination.next_page_number. simpl.
    rewrite Z.mul_1_l. by destruct (ps <? n).
Qed.

Lemma get_queryset_listing (self : Handler) (p ps : Z) (w w1 : world) :
  _convert_id_field (query_filter w) w = (Ok (query_filter w), w1) ->
  manager_skip w = PInt p -> 0 <= p ->
  manager_limit w = PInt ps -> 0 < ps ->
  let q := heap w1 !!! query_filter w in
  let c := mkCursor q (_parse_remove_fields (public_fields self)) p ps
             (Some ("_id", DESCENDING)) in
  get_queryset self true w =
    (Ok (mkQueryset (JList (bson_to_json <$> cursor_documents c (documents w)))
           (Z.of_nat (length (List.filter (matches q) (documents w))))),
     set_events (events w ++ [count_documents_call q; to_list_call c]) w1).
Proof.
  intros Hc Hskip Hp Hlimit Hps q c.
  unfold get_queryset. unfold bind at 1. unfold gets at 1. unfold bind at 1.
  by rewrite (find_listing _ p ps _ _ w w1).
Qed.

(** [list] on a world prepared for the request: the response is the first
    page's, whatever was skipped. *)
Lemma list_spec (self : Handler) (f : dict) (p ps : Z) (w : world) :
  heap w !! query_filter w = Some f ->
  (forall v, f !! "_id" = Some v -> truthy v = true -> is_Some (native_id v)) ->
  manager_skip w = PInt p -> 0 <= p ->
  manager_limit w = PInt ps -> 0 < ps ->
  page_size w = PInt ps ->
  let q := with_native_id f in
  let n := Z.of_nat (length (List.filter (matches q) (documents w))) in
  let c := mkCursor q (_parse_remove_fields (public_fields self)) p ps
             (Some ("_id", DESCENDING)) in
  exists w',
    ModelAPIView.list self w = (Raise Finish, w') /\
    status w' = 200 /\
    written w' =
      written w ++
      [JObj [("count", JInt n);
             ("next", if ps <? n then JStr (page_link (uri (request self)) 2) else JNull);
             ("previous", JNull);
             ("results", JList (bson_to_json <$> cursor_documents c (documents w)))]] /\
    events w' = events w ++ [count_documents_call q; to_list_call c].
Proof.
  intros Hl Hid Hskip Hp Hlimit Hps Hsize q n c.
  pose proof (lookup_total_correct _ _ _ Hl) as Hf.
  destruct (convert_returns (query_filter w) w) as [w1 Hc]; [by rewrite Hf|].
  destruct (convert_result _ _ _ _ Hc) as (_ & Hq & _ & _).
  pose proof (convert_frame (query_filter w) w) as Hframe.
  rewrite Hc in Hframe. simpl in Hframe.
  destruct Hframe as (_ & _ & _ & _ & Hsize1 & Hwritten & _).
  rewrite Hf in Hq. fold q in Hq.
  eexists. split; [|split; [|split]].
  - unfold ModelAPIView.list. unfold bind at 1.
    rewrite (get_queryset_listing self p ps w w1) by done.
    unfold bind at 1. rewrite Hq. fold c. fold n.
    assert (Hnone : n = 0 -> bson_to_json <$> cursor_documents c (documents w) = []).
    { intros Hn. rewrite cursor_documents_none; [done|]. simpl. lia. }
    rewrite (paginate_first_page self _ n ps (set_events _ w1)
               (eq_trans Hsize1 Hsize) Hps (Nat2Z.is_nonneg _) Hnone).
    unfold json_response. run. reflexivity.
  - done.
  - simpl. by rewrite Hwritten.
  - done.
Qed.

(** A list request that passes the checks reaches [list] in a world
    prepared from the parsed arguments. *)
Lemma execute_list (self : Handler) (args : dict) (w : world) :
  (extract_query_args (query_arguments (request self))).1 = Ok args ->
  first_refusal (request (prepared self)) (permissions_classes self) = None ->
  authenticate (authentication_class self) (request (prepared self)) = true ->
  let p := default (PInt 0) (args !! "page") in
  let ps := default (page_size w) (args !! "page_size") in
  let l := fresh (dom (heap w)) in
  let w0 :=
    mkWorld (<[l := base.delete "page_size" (base.delete "page" args)]> (heap w))
      (documents w) (generated w) p ps l p ps (written w) (status w)
      (events w ++ (has_permission_call <$> seq 0 (length (permissions_classes self)))
                ++ [authenticate_call]) in
  execute self ModelAPIView.list w =
    match ModelAPIView.list (prepared self) w0 with
    | (Ok _, w') => (Responded (status w') (written w'), w')
    | (Raise Finish, w') => (Responded (status w') (written w'), w')
    | (Raise e, w') => (Escaped e, w')
    end.
Proof.
  intros Hargs Hperm Hauth p ps l w0.
  unfold execute. unfold bind at 1.
  rewrite (prepare_spec self args w Hargs), checks_spec.
  change (permissions_classes (prepared self)) with (permissions_classes self).
  change (authentication_class (prepared self)) with (authentication_class self).
  by rewrite Hperm, Hauth.
Qed.

End HandlerSpec.


(** ** The request pipeline: the properties of the specification *)

Section HandlerProperties.
Context {libs : Libraries}.
Import Driver MotorModelManager MongoAPIMixin.

(** The cursor's ordering keeps the number of documents. *)
Hypothesis sort_docs_length :
  forall key dir (l : list dict), length (sort_docs key dir l) = length l.

(** C2, amended: [prepare] runs the collection-level permission checks
    before the authentication, both on the request as [extract_query_args]
    left it, which is the request that arrived without the last value of
    each of its arguments. The permission classes are consulted in order up
    to the first that refuses, which ends the request with 403 and its
    message before the authenticator is invoked; when all of them allow the
    request the authenticator is invoked, and its refusal ends the request
    with 401 and its message. *)
Theorem prepare_checks_permissions_then_authenticates (self : Handler) (args : dict)
    (w : world) :
  (extract_query_args (query_arguments (request self))).1 = Ok args ->
  let received := request (prepared self) in
  uri received = uri (request self) /\
  query_arguments received = popped <$> query_arguments (request self) /\
  exists w',
    (prepare self w).2 = w' /\
    match first_refusal received (permissions_classes self) with
    | Some (k, c) =>
        (prepare self w).1 = Raise Finish /\
        status w' = 403 /\ written w' = written w ++ [message c] /\
        events w' = events w ++ (has_permission_call <$> seq 0 (S k))
    | None =>
        events w' =
          events w ++ (has_permission_call <$> seq 0 (length (permissions_classes self)))
                   ++ [authenticate_call] /\
        if authenticate (authentication_class self) received
        then (prepare self w).1 = Ok tt /\
             status w' = status w /\ written w' = written w
        else (prepare self w).1 = Raise Finish /\
             status w' = 401 /\
             written w' = written w ++ [unauthorized_message (authentication_class self)]
    end.
Proof.
  intros Hargs received.
  destruct (prepared_request self args Hargs) as [Huri Hquery].
  split; [exact Huri|]. split; [exact Hquery|].
  rewrite (prepare_spec self args w Hargs), checks_spec.
  change (permissions_classes (prepared self)) with (permissions_classes self).
  change (authentication_class (prepared self)) with (authentication_class self).
  fold received.
  eexists. split; [reflexivity|].
  destruct (first_refusal _ _) as [[k c]|]; simpl; [done|].
  by destruct (authenticate _ _).
Qed.

(** C3, as the code has it: the handler never answers 400 to a DELETE.
    Either the identity does not parse and [InvalidId] escapes with nothing
    written, or the answer is 200 with the identity, whatever number of
    documents was deleted: the result of the manager's [delete] is an object
    and its truth test does not look at [deleted_count]. *)
Theorem delete_answers_200_whatever_was_deleted (object_id : string) (w : world) :
  exists w',
    (ModelAPIView.delete object_id w = (Raise (InvalidId object_id), w') /\
     ObjectId_of_str object_id = None /\
     written w' = written w /\ status w' = status w) \/
    (ModelAPIView.delete object_id w = (Raise Finish, w') /\
     status w' = 200 /\
     written w' = written w ++ [JObj [("_id", JStr object_id)]]).
Proof.
  destruct (ModelAPIView.delete object_id w) as [r w'] eqn:Hrun. exists w'.
  unfold ModelAPIView.delete in Hrun. unfold bind at 1 in Hrun. unfold alloc in Hrun.
  set (l := fresh (dom (heap w))) in Hrun.
  set (w0 := set_heap (<[l := {["_id" := PStr object_id]}]> (heap w)) w) in Hrun.
  assert (Hq : heap w0 !!! l = {["_id" := PStr object_id]})
    by (simpl; apply lookup_total_insert_eq).
  assert (Hv : (heap w0 !!! l) !! "_id" = Some (PStr object_id))
    by (rewrite Hq; apply lookup_singleton_eq).
  unfold bind at 1 in Hrun.
  destruct (String.eqb_spec object_id EmptyString) as [Hs|Hs].
  - assert (Hc : _convert_id_field l w0 = (Ok l, w0))
      by (apply convert_falsy; rewrite Hv; simpl; by rewrite Hs).
    rewrite (delete_after_conversion l w0 w0 Hc) in Hrun.
    unfold json_response in Hrun. run_in Hrun. simplify_eq. by right.
  - destruct (ObjectId_of_str object_id) as [o|] eqn:Ho.
    + assert (Ht : truthy (PStr object_id) = true)
        by (simpl; by destruct (String.eqb_spec object_id EmptyString)).
      rewrite (delete_after_conversion l w0 _ (convert_native l w0 _ o Hv Ht Ho)) in Hrun.
      unfold json_response in Hrun. run_in Hrun. simplify_eq. by right.
    + destruct (operation_raises l _ w0 w0 (convert_invalid l w0 _ Hv Hs Ho))
        as (_ & _ & Hraise).
      rewrite Hraise in Hrun. simplify_eq. by left.
Qed.

(** C9, amended: for a list request that passes the checks, with a page
    that is an integer and not negative and a page size that is a positive
    integer, the navigation of the response is that of page 1. The link to
    the next page is to page 2 exactly when the total exceeds the page
    size, the previous link is null, and neither depends on the page that
    was requested; the requested page is the number of documents that the
    cursor skips. *)
Theorem list_navigation_is_that_of_page_1 (self : Handler) (args : dict) (p ps : Z)
    (w : world) :
  (extract_query_args (query_arguments (request self))).1 = Ok args ->
  first_refusal (request (prepared self)) (permissions_classes self) = None ->
  authenticate (authentication_class self) (request (prepared self)) = true ->
  default (PInt 0) (args !! "page") = PInt p -> 0 <= p ->
  default (page_size w) (args !! "page_size") = PInt ps -> 0 < ps ->
  (forall v, args !! "_id" = Some v -> truthy v = true -> is_Some (native_id v)) ->
  let q := with_native_id (base.delete "page_size" (base.delete "page" args)) in
  let n := Z.of_nat (length (List.filter (matches q) (documents w))) in
  let c := mkCursor q (_parse_remove_fields (public_fields self)) p ps
             (Some ("_id", DESCENDING)) in
  exists w',
    execute self ModelAPIView.list w =
      (Responded 200
         (written w ++
          [JObj [("count", JInt n);
                 ("next", if ps <? n then JStr (page_link (uri (request self)) 2)
                          else JNull);
                 ("previous", JNull);
                 ("results", JList (bson_to_json <$> cursor_documents c (documents w)))]]),
       w') /\
    events w' =
      events w ++ (has_permission_call <$> seq 0 (length (permissions_classes self)))
               ++ [authenticate_call; count_documents_call q; to_list_call c].
Proof.
  intros Hargs Hperm Hauth Hp Hp0 Hps Hps0 Hid q n c.
  set (f := base.delete "page_size" (base.delete "page" args)).
  rewrite (execute_list self args w Hargs Hperm Hauth), Hp, Hps. fold f.
  match goal with |- context [ModelAPIView.list _ ?w1] => set (w0 := w1) end.
  destruct (list_spec sort_docs_length (prepared self) f p ps w0)
    as (w' & Hlist & Hstatus & Hwritten & Hevents); simpl; try done.
  - apply lookup_insert_eq.
  - intros v Hv. apply Hid. unfold f in Hv. by rewrite !lookup_delete_ne in Hv.
  - exists w'. rewrite Hlist, Hstatus, Hwritten, Hevents. simpl.
    split; [done|]. by rewrite <- !app_assoc.
Qed.

(** C4, amended: with the page size 20 and 45 matching documents, a list
    request for page 100 is answered with an empty list of results, and a
    request for page 0, which skips nothing, with the first 20 documents;
    both are answered with 200, no exception escapes. *)
Theorem page_100_is_empty_and_page_0_is_the_first (self : Handler) (args : dict) (p : Z)
    (w : world) :
  (extract_query_args (query_arguments (request self))).1 = Ok args ->
  first_refusal (request (prepared self)) (permissions_classes self) = None ->
  authenticate (authentication_class self) (request (prepared self)) = true ->
  args !! "page" = Some (PInt p) -> p = 0 \/ p = 100 ->
  args !! "page_size" = None -> page_size w = PInt 20 ->
  (forall v, args !! "_id" = Some v -> truthy v = true -> is_Some (native_id v)) ->
  let q := with_native_id (base.delete "page" args) in
  length (List.filter (matches q) (documents w)) = 45%nat ->
  exists results,
    (execute self ModelAPIView.list w).1 =
      Responded 200
        (written w ++
         [JObj [("count", JInt 45);
                ("next", JStr (page_link (uri (request self)) 2));
                ("previous", JNull);
                ("results", JList results)]]) /\
    results =
      bson_to_json <$>
        cursor_documents
          (mkCursor q (_parse_remove_fields (public_fields self)) p 20
             (Some ("_id", DESCENDING)))
          (documents w) /\
    length results = if p =? 0 then 20%nat else 0%nat.
Proof.
  intros Hargs Hperm Hauth Hpage Hp Hsize Hdefault Hid q Hcount. unfold q in *. clear q.
  set (f := base.delete "page" args) in *.
  assert (Hf : base.delete "page_size" f = f)
    by (apply delete_id; unfold f; by rewrite lookup_delete_ne).
  rewrite (execute_list self args w Hargs Hperm Hauth), Hpage, Hsize, Hdefault. simpl.
  fold f. rewrite Hf.
  match goal with |- context [ModelAPIView.list _ ?w1] => set (w0 := w1) end.
  destruct (list_spec sort_docs_length (prepared self) f p 20 w0)
    as (w' & Hlist & Hstatus & Hwritten & _); simpl; try done; try lia.
  - apply lookup_insert_eq.
  - intros v Hv. apply Hid. unfold f in Hv. by rewrite lookup_delete_ne in Hv.
  - rewrite Hlist, Hstatus, Hwritten. simpl. fold f. rewrite Hcount. simpl.
    eexists. split; [reflexivity|]. split; [reflexivity|].
    rewrite length_fmap, (cursor_documents_length sort_docs_length) by (simpl; lia).
    simpl. fold f. rewrite Hcount. by destruct Hp as [-> | ->].
Qed.

End HandlerProperties.

(** ** Query-string parsing: the property of the specification *)

(** C5: parsing returns whenever the last value of every argument
    decodes, and the filter it returns has, for each pair of the request,
    the value parsed from the last value given for the key under the key
    with each ["__"] turned into ["."] (of two pairs with the same
    translated key, the later one), and nothing else: the text is split on
    commas and, if every piece parses as an integer, the value is the
    integer (one piece) or the list of integers, else the original text or
    texts. With decimal integers, [status=1,2,3] gives [{status: [1,2,3]}],
    [status=a,b] gives [{status: ["a","b"]}] and [user__id=5] gives
    [{"user.id": 5}]. *)
Theorem query_string_parsing :
  (forall (libs : Libraries) items,
     Forall decodable items -> exists d, (extract_query_args items).1 = Ok d) /\
  (forall (libs : Libraries) items d i key values,
     (extract_query_args items).1 = Ok d ->
     items !! i = Some (key, values) ->
     (forall j key' values', (i < j)%nat -> items !! j = Some (key', values') ->
        PyStr.replace_dunder key' ≠ PyStr.replace_dunder key) ->
     exists raw text,
       last values = Some raw /\ decode_utf8 raw = Some text /\
       d !! PyStr.replace_dunder key = Some (spec_filter_value text)) /\
  (forall (libs : Libraries) items d k v,
     (extract_query_args items).1 = Ok d -> d !! k = Some v ->
     exists key values raw text,
       (key, values) ∈ items /\ PyStr.replace_dunder key = k /\
       last values = Some raw /\ decode_utf8 raw = Some text /\
       v = spec_filter_value text) /\
  (forall (libs : Libraries) key values raw text,
     last values = Some raw -> decode_utf8 raw = Some text ->
     (extract_query_args [(key, values)]).1 =
       Ok {[PyStr.replace_dunder key := spec_filter_value text]}) /\
  (forall key, PyStr.has_dunder (PyStr.replace_dunder key) = false) /\
  (extract_query_args (libs := Sample.libs) [("status", ["1,2,3"])]).1 =
    Ok {["status" := PInts [1; 2; 3]]} /\
  (extract_query_args (libs := Sample.libs) [("status", ["a,b"])]).1 =
    Ok {["status" := PStrs ["a"; "b"]]} /\
  (extract_query_args (libs := Sample.libs) [("user__id", ["5"])]).1 =
    Ok {["user.id" := PInt 5]}.
Proof.
  split; [|split; [|split; [|split; [|split; [|split; [|split]]]]]].
  - intros libs items Hitems. rewrite extract_query_args_loop.
    destruct (extract_loop_returns items ∅ Hitems) as (d & Hd & _). by exists d.
  - intros libs items d i key values Hrun Hi Hlater.
    rewrite extract_query_args_loop in Hrun.
    by apply (extract_loop_lookup items ∅ d i key values).
  - intros libs items d k v Hrun Hk. rewrite extract_query_args_loop in Hrun.
    destruct (extract_loop_sound items ∅ d Hrun k v Hk) as [Hempty|Hfrom].
    + by rewrite lookup_empty in Hempty.
    + exact Hfrom.
  - intros libs key values raw text Hraw Htext. simpl.
    rewrite Hraw, Htext. simpl. by rewrite query_arg_value_spec.
  - intros key. apply replace_dunder_pair.
  - vm_compute. reflexivity.
  - vm_compute. reflexivity.
  - vm_compute. reflexivity.
Qed.

(** A request of three arguments, two of which translate to the same key:
    the first and the last are in the filter as the theorem says. *)
Lemma query_string_parsing_witness :
  let items := [("status", ["1,2,3"]); ("user__id", ["9"]); ("user.id", ["x"; "7,b"])] in
  let d : dict := {["status" := PInts [1; 2; 3]; "user.id" := PStrs ["7"; "b"]]} in
  (extract_query_args (libs := Sample.libs) items).1 = Ok d /\
  (exists raw text,
     last ["1,2,3"] = Some raw /\ Sample.libs.(decode_utf8) raw = Some text /\
     d !! PyStr.replace_dunder "status" =
       Some (spec_filter_value (libs := Sample.libs) text)) /\
  (exists raw text,
     last ["x"; "7,b"] = Some raw /\ Sample.libs.(decode_utf8) raw = Some text /\
     d !! PyStr.replace_dunder "user.id" =
       Some (spec_filter_value (libs := Sample.libs) text)).
Proof.
  intros items d.
  assert (Hrun : (extract_query_args (libs := Sample.libs) items).1 = Ok d)
    by (vm_compute; reflexivity).
  split; [exact Hrun|]. split.
  - apply (proj1 (proj2 query_string_parsing) Sample.libs items d 0%nat "status" ["1,2,3"]
             Hrun eq_refl).
    intros [|[|[|j]]] key' values' Hj Hitem; simpl in Hitem; try lia; simplify_eq;
      vm_compute; discriminate.
  - apply (proj1 (proj2 query_string_parsing) Sample.libs items d 2%nat "user.id"
             ["x"; "7,b"] Hrun eq_refl).
    intros [|[|[|j]]] key' values' Hj Hitem; simpl in Hitem; try lia; simplify_eq.
Defined.

(** ** Examples and counterexamples on the sample libraries *)

#[local] Existing Instance Sample.libs.

Lemma order_by_length (key : string) (dir : direction) (l : list dict) :
  length (Sample.order_by key dir l) = length l.
Proof.
  unfold Sample.order_by. induction l as [|d l IH]; simpl; [done|].
  rewrite <- IH.
  generalize (foldr
    (Sample.insert_sorted
       match dir with
       | ASCENDING => fun a b => Sample.value_leb (a !! key) (b !! key)
       | DESCENDING => fun a b => Sample.value_leb (b !! key) (a !! key)
       end) [] l).
  intros sorted. clear IH. induction sorted as [|x r IH]; simpl; [done|].
  destruct (match dir with ASCENDING => _ | DESCENDING => _ end d x); simpl; [done|].
  by rewrite IH.
Qed.

(** The two payloads [{"a": 1}] and [{"a": 1, "b": 2}] both reach the
    single-document update. *)
Example update_of_one_and_of_two_fields :
  events (MotorModelManager.update 0%nat {["a" := PInt 1]}
            (world_with_filter {["n" := PInt 1]} (Sample.numbered 3))).2 =
    [update_one_call {["n" := PInt 1]} {["$set" := {["a" := PInt 1]}]}] /\
  events (MotorModelManager.update 0%nat
            {["a" := PInt 1; "b" := PInt 2]}
            (world_with_filter {["n" := PInt 1]} (Sample.numbered 3))).2 =
    [update_one_call {["n" := PInt 1]} {["$set" := {["a" := PInt 1; "b" := PInt 2]}]}].
Proof. split; vm_compute; reflexivity. Qed.

(** A DELETE of a well-formed identity that no document has: nothing is
    deleted and the answer is 200. *)
Example delete_of_an_absent_identity :
  let self := sample_handler [] [true] true in
  let w := new_world (Sample.numbered 3) 3 in
  let r := execute self
             (fun _ => ModelAPIView.delete "0000000000000000000000ff") w in
  r.1 = Responded 200 [JObj [("_id", JStr "0000000000000000000000ff")]] /\
  documents r.2 = documents w.
Proof. split; vm_compute; reflexivity. Qed.

(** C2 fails as stated: with a permission that refuses and an
    authenticator that refuses, the answer is 403, not 401; with a
    permission that allows, the permission check has run when the
    authenticator answers. *)
Lemma authentication_is_not_first :
  ~ authentication_first
      (sample_handler [] [false] false) (new_world [] 0) /\
  ~ authentication_first
      (sample_handler [] [true] false) (new_world [] 0).
Proof.
  split; intros H; destruct (H eq_refl) as [Hstatus Hcalls].
  - vm_compute in Hstatus. discriminate.
  - apply (Hcalls 0%nat). vm_compute. apply list_elem_of_here.
Qed.

(** C4 fails as stated: with 45 documents and the page size 20, the answer
    to a request for page 0 lists documents. *)
Lemma page_0_lists_documents :
  ~ answered_without_results
      (sample_handler [("page", ["0"])] [true] true)
      (new_world (Sample.numbered 45) 45).
Proof.
  intros (count & next & previous & H). vm_compute in H. discriminate.
Qed.

(** C9 fails as stated, for every list request: the request for page -1
    of 45 documents is not answered at all. The cursor refuses to skip a
    negative number of documents and [ValueError] escapes. *)
Lemma negative_page_is_not_answered :
  let self := sample_handler [("page", ["-1"])] [true] true in
  let w := new_world (Sample.numbered 45) 45 in
  (execute self ModelAPIView.list w).1 = Escaped ValueError /\
  ~ navigation_of_page_1 self 20 w.
Proof.
  intros self w.
  assert (Hrun : (execute self ModelAPIView.list w).1 = Escaped ValueError)
    by (vm_compute; reflexivity).
  split; [exact Hrun|].
  intros (count & results & H). rewrite Hrun in H. discriminate.
Qed.

(** C6 fails as stated: the filter has the identity key, with the empty
    text; [delete] returns, and the query it sent has the text, not a native
    identifier. *)
Lemma empty_identity_is_not_converted :
  let w := world_with_filter {["_id" := PStr EmptyString]} (Sample.numbered 3) in
  is_Some ((heap w !!! 0%nat) !! "_id") /\
  ~ converted_or_raised (MotorModelManager.delete 0%nat) w.
Proof.
  intros w. split; [by eexists|].
  assert (Hc : MotorModelManager._convert_id_field 0%nat w = (Ok 0%nat, w))
    by (apply convert_falsy; vm_compute; reflexivity).
  unfold converted_or_raised.
  rewrite (delete_after_conversion 0%nat w w Hc).
  intros H.
  destruct (H (delete_one_call {["_id" := PStr EmptyString]}) {["_id" := PStr EmptyString]})
    as [o Ho].
  - vm_compute. apply list_elem_of_here.
  - reflexivity.
  - vm_compute in Ho. discriminate.
Qed.

(** *** The theorems at concrete inputs *)

(** Two permissions, the second of which asks for a token. The request
    that arrives gives the token, so both allow it as it arrived; the
    request they are given has lost it: the answer is 403 after two
    permission checks, and the authenticator, which would refuse, is not
    invoked. *)
Lemma prepare_checks_witness :
  let self :=
    mkHandler (mkRequest "/things?token=s3cret" [("token", ["s3cret"])])
      (mkAuthentication (fun _ => false) (JStr "unauthorized"))
      [sample_permission true; token_permission "s3cret"] [] in
  let w' := (MongoAPIMixin.prepare self (new_world [] 0)).2 in
  first_refusal (request self) (permissions_classes self) = None /\
  query_arguments (request (MongoAPIMixin.prepared self)) = [("token", [])] /\
  status w' = 403 /\ written w' = [JStr "token required"] /\
  events w' = [has_permission_call 0; has_permission_call 1].
Proof.
  intros self w'.
  destruct (prepare_checks_permissions_then_authenticates self
              {["token" := PStr "s3cret"]} (new_world [] 0))
    as (_ & Hquery & w1 & Hw1 & H); [vm_compute; reflexivity|].
  fold w' in Hw1. subst w1.
  split; [reflexivity|]. split; [exact Hquery|].
  change (first_refusal (request (MongoAPIMixin.prepared self)) (permissions_classes self))
    with (Some (1%nat, token_permission "s3cret")) in H.
  destruct H as (_ & Hstatus & Hwritten & Hevents).
  split; [exact Hstatus|]. split; [exact Hwritten|exact Hevents].
Defined.

(** 45 documents, page size 20: page 100 has no results, page 0 has 20. *)
Lemma page_100_and_page_0_witness :
  let w := new_world (Sample.numbered 45) 45 in
  (exists results,
     let self := sample_handler [("page", ["100"])] [true] true in
     (execute self ModelAPIView.list w).1 =
       Responded 200
         (written w ++
          [JObj [("count", JInt 45);
                 ("next", JStr (MongoAPIMixin.page_link (uri (request self)) 2));
                 ("previous", JNull);
                 ("results", JList results)]]) /\
     length results = 0%nat) /\
  (exists results,
     let self := sample_handler [("page", ["0"])] [true] true in
     (execute self ModelAPIView.list w).1 =
       Responded 200
         (written w ++
          [JObj [("count", JInt 45);
                 ("next", JStr (MongoAPIMixin.page_link (uri (request self)) 2));
                 ("previous", JNull);
                 ("results", JList results)]]) /\
     length results = 20%nat).
Proof.
  intros w. split.
  - destruct (page_100_is_empty_and_page_0_is_the_first (libs := Sample.libs)
                order_by_length
                (sample_handler [("page", ["100"])] [true] true)
                {["page" := PInt 100]} 100 w)
      as (results & Hrun & _ & Hlength); try (vm_compute; reflexivity).
    + by right.
    + intros v Hv. vm_compute in Hv. discriminate.
    + exists results. split; [exact Hrun|exact Hlength].
  - destruct (page_100_is_empty_and_page_0_is_the_first (libs := Sample.libs)
                order_by_length
                (sample_handler [("page", ["0"])] [true] true)
                {["page" := PInt 0]} 0 w)
      as (results & Hrun & _ & Hlength); try (vm_compute; reflexivity).
    + by left.
    + intros v Hv. vm_compute in Hv. discriminate.
    + exists results. split; [exact Hrun|exact Hlength].
Defined.

(** A well-formed identity is sent as a native identifier. *)
Lemma identity_converted_witness :
  let d : dict := {["_id" := PStr "0000000000000000000000ff"]} in
  let w := world_with_filter d (Sample.numbered 3) in
  queries_carry (<["_id" := POid (Sample.generate 255)]> (heap w !!! 0%nat)) 0%nat w.
Proof.
  intros d w.
  assert (Hv : (heap w !!! 0%nat) !! "_id" = Some (PStr "0000000000000000000000ff"))
    by (vm_compute; reflexivity).
  apply (proj1 (proj2 (identity_converted_when_truthy 0%nat w _ Hv))
           "0000000000000000000000ff" (Sample.generate 255) eq_refl).
  - discriminate.
  - vm_compute. reflexivity.
Defined.

(** Three documents match; skipping two and limiting to one leaves the
    total at three. *)
Lemma find_total_witness :
  let w := world_with_filter ∅ (Sample.numbered 3) in
  match (MotorModelManager.find 0%nat true None [] PNone
           (set_manager_skip (PInt 2) (set_manager_limit (PInt 1) w))).1 with
  | Ok queryset =>
      total queryset = 3 /\ exists row, _value queryset = JList [row]
  | Raise _ => False
  end.
Proof.
  intros w.
  destruct (MotorModelManager.find 0%nat true None [] PNone
              (set_manager_skip (PInt 2) (set_manager_limit (PInt 1) w)))
    as [[queryset|e] w'] eqn:Hfind; simpl.
  - split.
    + rewrite (find_total_counts_matching _ _ _ _ _ _ _ _ _ _ Hfind).
      vm_compute. reflexivity.
    + vm_compute in Hfind. injection Hfind as <- _. eexists. reflexivity.
  - vm_compute in Hfind. discriminate.
Defined.

(** Page 44 of 45 documents: one document is left after skipping 44, and
    the links are those of page 1. *)
Lemma list_navigation_witness :
  let self := sample_handler [("page", ["44"])] [true] true in
  let w := new_world (Sample.numbered 45) 45 in
  exists row,
    (execute self ModelAPIView.list w).1 =
      Responded 200
        [JObj [("count", JInt 45); ("next", JStr "/things?x=1&page=2");
               ("previous", JNull); ("results", JList [row])]].
Proof.
  intros self w.
  destruct (list_navigation_is_that_of_page_1 (libs := Sample.libs) order_by_length self
              {["page" := PInt 44]} 44 20 w) as (w' & Hrun & _);
    try (vm_compute; reflexivity); try lia.
  - intros v Hv. vm_compute in Hv. discriminate.
  - rewrite Hrun. eexists. vm_compute. reflexivity.
Defined.

(** The caller's filter holds the native identifier after each operation. *)
Lemma filter_converted_witness :
  let d : dict := {["_id" := PStr "0000000000000000000000ff"]} in
  let w := world_with_filter d (Sample.numbered 3) in
  heap_becomes (<[0%nat := <["_id" := POid (Sample.generate 255)]> d]> (heap w)) 0%nat w.
Proof.
  intros d w.
  apply (proj1 (filter_converted_in_place 0%nat w d eq_refl)
           "0000000000000000000000ff" (Sample.generate 255) eq_refl).
  - discriminate.
  - vm_compute. reflexivity.
Defined.

(** * Further properties of the code *)

(** ** Query-string parsing *)

Section QueryArgsMore.
Context {libs : Libraries}.

Lemma split_comma_cons (s : string) :
  exists piece pieces, PyStr.split_comma s = piece :: pieces.
Proof.
  destruct s as [|c r]; simpl; [by eexists _, _|].
  destruct (Ascii.eqb c ","); [by eexists _, _|].
  destruct (PyStr.split_comma r); by eexists _, _.
Qed.

(** X1: splitting a value on commas loses nothing: there is always a first
    piece, and the pieces joined by commas are the value. *)
Theorem split_comma_join (s : string) :
  PyStr.split_comma s ≠ [] /\ String.concat "," (PyStr.split_comma s) = s.
Proof.
  split.
  - by destruct (split_comma_cons s) as (piece & pieces & ->).
  - induction s as [|c r IH]; simpl; [done|].
    destruct (Ascii.eqb_spec c ",") as [->|Hc].
    + destruct (split_comma_cons r) as (piece & pieces & Hr).
      rewrite Hr in IH |- *. simpl in *. by rewrite IH.
    + destruct (split_comma_cons r) as (piece & pieces & Hr).
      rewrite Hr in IH |- *. rewrite <- IH.
      by destruct pieces.
Qed.

Lemma replace_dunder_without (s : string) :
  PyStr.has_dunder s = false -> PyStr.replace_dunder s = s.
Proof.
  induction s as [|c r IH]; [done|].
  destruct r as [|d r']; [done|].
  change (PyStr.has_dunder (String c (String d r'))) with
    ((Ascii.eqb c "_" && Ascii.eqb d "_") || PyStr.has_dunder (String d r')).
  change (PyStr.replace_dunder (String c (String d r'))) with
    (if Ascii.eqb c "_" && Ascii.eqb d "_"
     then String "."%char (PyStr.replace_dunder r')
     else String c (PyStr.replace_dunder (String d r'))).
  intros [Hcd Hr]%orb_false_elim. rewrite Hcd. by rewrite (IH Hr).
Qed.

(** X2: a key without ["__"] is kept as it is, and translating a key twice
    is translating it once. *)
Theorem replace_dunder_idempotent (key : string) :
  (PyStr.has_dunder key = false -> PyStr.replace_dunder key = key) /\
  PyStr.replace_dunder (PyStr.replace_dunder key) = PyStr.replace_dunder key.
Proof.
  split; [apply replace_dunder_without|].
  apply replace_dunder_without, replace_dunder_pair.
Qed.

End QueryArgsMore.

Section ExtractMore.
Context {libs : Libraries}.

Lemma extract_loop_app (items more : list (string * list string)) (acc : dict) :
  (extract_loop (items ++ more) acc).1 =
    rbind (extract_loop items acc).1 (fun d => (extract_loop more d).1).
Proof.
  revert acc. induction items as [|[key values] rest IH]; intros acc; simpl; [done|].
  destruct (last values) as [raw|]; [|done].
  destruct (decode_utf8 raw) as [text|]; [|done].
  apply IH.
Qed.

(** The loop at the first value that does not decode: the pairs up to it
    have lost their last value, the later ones are as they were. *)
Lemma extract_loop_fails (before after : list (string * list string)) (key : string)
    (values : list string) (raw : string) (acc : dict) :
  Forall decodable before ->
  last values = Some raw -> decode_utf8 raw = None ->
  extract_loop (before ++ (key, values) :: after) acc =
    (Raise UnicodeDecodeError, (popped <$> before) ++ (key, removelast values) :: after).
Proof.
  intros Hbefore Hraw Hnone. revert acc.
  induction Hbefore as [|[key0 values0] rest (raw0 & text0 & Hraw0 & Htext0) _ IH];
    intros acc; simpl in *.
  - by rewrite Hraw, Hnone.
  - by rewrite Hraw0, Htext0, IH.
Qed.

(** X3: when the last value of every key decodes, parsing returns a filter
    whose keys are exactly the translated keys of the request. *)
Theorem extract_query_args_keys (items : list (string * list string)) :
  Forall decodable items ->
  exists d, (extract_query_args items).1 = Ok d /\
            dom d = list_to_set (PyStr.replace_dunder <$> items.*1).
Proof.
  intros Hitems. rewrite extract_query_args_loop.
  destruct (extract_loop_returns items ∅ Hitems) as (d & Hd & Hdom).
  exists d. split; [done|]. rewrite Hdom. set_solver.
Qed.

(** X4: the pairs are taken in order: the filter of a request with one more
    pair is the filter of the request with that pair's entry put in, so that
    of two keys with the same translation the later one stays. *)
Theorem extract_query_args_snoc (items : list (string * list string)) (d : dict)
    (key : string) (values : list string) (raw text : string) :
  (extract_query_args items).1 = Ok d ->
  last values = Some raw -> decode_utf8 raw = Some text ->
  (extract_query_args (items ++ [(key, values)])).1 =
    Ok (<[PyStr.replace_dunder key := spec_filter_value text]> d).
Proof.
  rewrite !extract_query_args_loop, extract_loop_app. intros -> Hraw Htext. simpl.
  rewrite Hraw, Htext. simpl. by rewrite query_arg_value_spec.
Qed.

Lemma omap_all_length (args : list string) :
  forallb (fun s => bool_decide (is_Some (py_int s))) args = true ->
  length (omap py_int args) = length args.
Proof.
  induction args as [|arg rest IH]; simpl; [done|].
  intros [Harg Hrest]%andb_prop.
  apply bool_decide_eq_true in Harg as [n Hn]. rewrite Hn. simpl. f_equal. by apply IH.
Qed.

Lemma spec_filter_value_parsed (text : string) : parsed_value (spec_filter_value text).
Proof.
  unfold spec_filter_value.
  destruct (split_comma_cons text) as (piece & pieces & ->).
  destruct (forallb _ (piece :: pieces)) eqn:Hall.
  - pose proof (omap_all_length _ Hall) as Hlen.
    destruct (omap py_int (piece :: pieces)) as [|n [|m ns]]; simpl in *; try done; lia.
  - destruct pieces; simpl; [done|lia].
Qed.

(** X5: every value of the filter is an integer, a text, or a list of at
    least two integers or two texts; so the only values that Python's truth
    test takes for false are the integer 0 and the empty text. *)
Theorem extract_query_args_values (items : list (string * list string)) (d : dict)
    (k : string) (v : pyval) :
  (extract_query_args items).1 = Ok d -> d !! k = Some v ->
  parsed_value v /\
  (truthy v = false -> v = PInt 0 \/ v = PStr EmptyString).
Proof.
  intros Hrun Hk. rewrite extract_query_args_loop in Hrun.
  assert (Hv : parsed_value v).
  { destruct (extract_loop_sound items ∅ d Hrun k v Hk)
      as [Hempty|(key & values & raw & text & _ & _ & _ & _ & ->)].
    - by rewrite lookup_empty in Hempty.
    - apply spec_filter_value_parsed. }
  split; [done|].
  destruct v as [|n|s|l|l|o]; simpl in *; try done.
  - intros Hn. left. f_equal. by destruct (Z.eqb_spec n 0).
  - intros Hs. right. f_equal. by destruct (String.eqb_spec s EmptyString).
  - destruct l; simpl in *; [lia|done].
  - destruct l; simpl in *; [lia|done].
Qed.

(** X6: a value that is not UTF-8 is not among the errors that the parsing
    handles: [UnicodeDecodeError] escapes from [prepare] before any check
    runs, nothing is written and the method is not run. *)
Theorem undecodable_value_escapes (self : Handler) (method : Handler -> M unit)
    (before after : list (string * list string)) (key : string)
    (values : list string) (raw : string) (w : world) :
  query_arguments (request self) = before ++ (key, values) :: after ->
  Forall decodable before ->
  last values = Some raw -> decode_utf8 raw = None ->
  execute self method w = (Escaped UnicodeDecodeError, w).
Proof.
  intros Hquery Hbefore Hraw Hnone.
  assert (Hrun : (extract_query_args (query_arguments (request self))).1 =
                   Raise UnicodeDecodeError).
  { rewrite Hquery, extract_query_args_loop.
    by rewrite (extract_loop_fails before after key values raw ∅ Hbefore Hraw Hnone). }
  unfold execute, MongoAPIMixin.prepare. cbv zeta. unfold bind at 1 2. unfold lift.
  by rewrite Hrun.
Qed.

(** X24: [extract_query_args] takes what it parses out of the request.
    When it returns, every argument of the request has lost its last
    value; when a value does not decode, the arguments up to and including
    that one have lost theirs and the later ones are as they were. *)
Theorem extract_query_args_pops (items : list (string * list string)) :
  (forall d, (extract_query_args items).1 = Ok d ->
     (extract_query_args items).2 = popped <$> items) /\
  (forall before key values after raw,
     items = before ++ (key, values) :: after ->
     Forall decodable before ->
     last values = Some raw -> decode_utf8 raw = None ->
     extract_query_args items =
       (Raise UnicodeDecodeError,
        (popped <$> before) ++ (key, removelast values) :: after)).
Proof.
  split.
  - intros d. rewrite extract_query_args_loop. apply extract_loop_pops.
  - intros before key values after raw -> Hbefore Hraw Hnone.
    rewrite extract_query_args_loop. by apply (extract_loop_fails _ _ _ _ raw).
Qed.

End ExtractMore.

(** ** The manager *)

Section ManagerMore.
Context {libs : Libraries}.
Import Driver MotorModelManager.

Lemma set_heap_same (w : world) : set_heap (heap w) w = w.
Proof. by destruct w. Qed.

(** X7: the identity conversion is idempotent on the filter object: after a
    conversion that returned, converting the same object again returns and
    changes nothing, so a filter object can be passed to the manager again. *)
Theorem convert_id_field_idempotent (qf l : loc) (w w1 : world) :
  _convert_id_field qf w = (Ok l, w1) ->
  _convert_id_field qf w1 = (Ok qf, w1).
Proof.
  intros Hc.
  destruct ((heap w !!! qf) !! "_id") as [v|] eqn:Hv.
  - destruct (truthy v) eqn:Ht.
    + destruct (native_id v) as [o|] eqn:Ho.
      * rewrite (convert_native qf w v o Hv Ht Ho) in Hc.
        injection Hc as Hl Hw. subst l w1.
        rewrite (convert_native qf _ (POid o) o); simpl; try done.
        -- rewrite lookup_total_insert_eq, insert_insert_eq, insert_insert_eq. done.
        -- by rewrite lookup_total_insert_eq, lookup_insert_eq.
      * unfold _convert_id_field in Hc. run_in Hc. rewrite Hv in Hc. simpl in Hc.
        rewrite Ht in Hc. destruct v; simpl in *; simplify_eq.
        rewrite Ho in Hc. simplify_eq.
    + rewrite convert_falsy in Hc by (by rewrite Hv).
      injection Hc as Hl Hw. subst l w1. apply convert_falsy. by rewrite Hv.
  - rewrite convert_falsy in Hc by (by rewrite Hv).
    injection Hc as Hl Hw. subst l w1. apply convert_falsy. by rewrite Hv.
Qed.

(** [find] for one document, once the identity is converted. *)
Lemma find_single (qf : loc) (sort_key : option (string * direction))
    (remove_fields : list string) (limit_arg : pyval) (w w1 : world) :
  _convert_id_field qf w = (Ok qf, w1) ->
  let q := heap w1 !!! qf in
  let projection := _parse_remove_fields remove_fields in
  let matching := List.filter (matches q) (documents w) in
  find qf false sort_key remove_fields limit_arg w =
    (Ok (mkQueryset (_parse_json (FoundOne (project_with projection <$> head matching)))
           (Z.of_nat (length matching))),
     set_events (events w ++ [count_documents_call q; find_one_call q projection]) w1).
Proof.
  intros Hc q projection matching.
  pose proof (convert_frame qf w) as Hf. rewrite Hc in Hf. simpl in Hf.
  destruct Hf as (Hdocs & Hev & _).
  unfold find, _parse_query_filter. unfold bind at 1 2. rewrite Hc.
  unfold count_documents, find_one. run. fold q. fold projection.
  rewrite Hdocs, Hev, <- app_assoc. done.
Qed.

Lemma convert_set_manager (qf : loc) (s l : pyval) (w : world) :
  _convert_id_field qf (set_manager_skip s (set_manager_limit l w)) =
    ((_convert_id_field qf w).1,
     set_manager_skip s (set_manager_limit l (_convert_id_field qf w).2)).
Proof.
  unfold _convert_id_field. run.
  destruct (truthy _); [|done].
  destruct (default PNone _); simpl; try done.
  destruct (ObjectId_of_str s0); done.
Qed.

(** X8: a query for one document does not look at the pagination: its
    result is the same whatever the manager's [skip] and [limit], the
    [limit] argument and the sort key are. *)
Theorem find_one_ignores_pagination (qf : loc) (sort_key : option (string * direction))
    (remove_fields : list string) (limit_arg self_skip self_limit : pyval) (w : world) :
  (find qf false sort_key remove_fields limit_arg
     (set_manager_skip self_skip (set_manager_limit self_limit w))).1 =
  (find qf false None remove_fields PNone w).1.
Proof.
  set (w0 := set_manager_skip self_skip (set_manager_limit self_limit w)).
  pose proof (convert_set_manager qf self_skip self_limit w) as Hset. fold w0 in Hset.
  destruct (_convert_id_field qf w) as [[l|e] w1] eqn:Hc; simpl in Hset.
  - destruct (convert_result _ _ _ _ Hc) as (-> & _).
    rewrite (find_single qf sort_key remove_fields limit_arg w0 _ Hset).
    rewrite (find_single qf None remove_fields PNone w w1 Hc). done.
  - destruct (operation_raises qf e w0 _ Hset) as (-> & _).
    by destruct (operation_raises qf e w w1 Hc) as (-> & _).
Qed.

(** X9: [find] for one document returns the first matching document in the
    collection's order under the projection, and [None] (JSON null) when no
    document matches; its total still counts every match. *)
Theorem find_one_first_match (qf : loc) (sort_key : option (string * direction))
    (remove_fields : list string) (limit_arg : pyval) (w w' : world) (queryset : Queryset) :
  find qf false sort_key remove_fields limit_arg w = (Ok queryset, w') ->
  let matching :=
    List.filter (matches (with_native_id (heap w !!! qf))) (documents w) in
  total queryset = Z.of_nat (length matching) /\
  _value queryset =
    match matching with
    | [] => JNull
    | doc :: _ => bson_to_json (project_with (_parse_remove_fields remove_fields) doc)
    end /\
  documents w' = documents w.
Proof.
  intros Hfind.
  destruct (_convert_id_field qf w) as [[l|e] w1] eqn:Hc.
  - destruct (convert_result _ _ _ _ Hc) as (-> & Hq & Hdocs & _).
    rewrite (find_single qf sort_key remove_fields limit_arg w w1 Hc) in Hfind.
    simplify_eq. simpl. rewrite Hq.
    repeat split; [|done]. by destruct (List.filter _ _).
  - destruct (operation_raises qf e w w1 Hc) as (Hraise & _).
    by rewrite Hraise in Hfind.
Qed.


(** X11: the projection that [find] asks for leaves out exactly the listed
    fields: there is none when no field is listed, else it gives 0 to each
    listed field and to nothing else. *)
Theorem parse_remove_fields_spec (remove_fields : list string) :
  match _parse_remove_fields remove_fields with
  | None => remove_fields = []
  | Some projection =>
      remove_fields ≠ [] /\
      forall field, projection !! field = if bool_decide (field ∈ remove_fields)
                                           then Some 0 else None
  end.
Proof.
  unfold _parse_remove_fields.
  destruct remove_fields as [|f rest] eqn:Hfields; [done|]. rewrite <- Hfields.
  split; [by rewrite Hfields|]. clear Hfields.
  intros field. induction remove_fields as [|g gs IH]; simpl; [done|].
  rewrite lookup_insert. destruct (decide (g = field)) as [->|Hg].
  - rewrite bool_decide_eq_true_2; [done|]. apply list_elem_of_here.
  - rewrite IH. apply not_eq_sym in Hg.
    destruct (bool_decide (field ∈ gs)) eqn:Hin.
    + apply bool_decide_eq_true in Hin. rewrite bool_decide_eq_true_2; [done|].
      by apply list_elem_of_further.
    + apply bool_decide_eq_false in Hin. rewrite bool_decide_eq_false_2; [done|].
      by intros [?|?]%elem_of_cons.
Qed.

(** [create], when it returns. *)
Lemma create_returns (model_object : Model) (w w1 : world) (data : dict) :
  let oid := ObjectId_generate (generated w) in
  let primitive := base.delete "_id" (to_primitive model_object) in
  create model_object w = (Ok data, w1) ->
  data = <["_id" := PStr (py_str (POid oid))]> primitive /\
  documents w1 = documents w ++ [<["_id" := POid oid]> primitive] /\
  heap w1 = heap w.
Proof.
  intros oid primitive Hcreate.
  unfold create, insert_one in Hcreate. run_in Hcreate.
  rewrite lookup_delete_eq in Hcreate. simpl in Hcreate.
  fold primitive in Hcreate. fold oid in Hcreate.
  destruct (duplicate_key _ _); simpl in Hcreate; [done|].
  rewrite lookup_insert_eq in Hcreate. simpl in Hcreate.
  rewrite insert_insert_eq in Hcreate. by simplify_eq.
Qed.

(** X12: what [create] returns finds the document again: with a text and
    an identifier that convert into each other, an identity that no document
    had, and a matcher that compares the identity, a query for one document
    by the returned ['_id'] gives the stored document and the total 1. *)
Theorem create_then_find_one (model_object : Model) (w w1 : world) (data : dict)
    (l : loc) :
  let oid := ObjectId_generate (generated w) in
  let stored := <["_id" := POid oid]> (base.delete "_id" (to_primitive model_object)) in
  create model_object w = (Ok data, w1) ->
  py_str (POid oid) ≠ EmptyString ->
  ObjectId_of_str (py_str (POid oid)) = Some oid ->
  (forall d, matches {["_id" := POid oid]} d = bool_decide (d !! "_id" = Some (POid oid))) ->
  Forall (fun d => d !! "_id" ≠ Some (POid oid)) (documents w) ->
  heap w1 !! l = Some {["_id" := default PNone (data !! "_id")]} ->
  (find l false None [] PNone w1).1 = Ok (mkQueryset (bson_to_json stored) 1).
Proof.
  intros oid stored Hcreate Hstr Hparse Hmatch Hfresh Hl.
  destruct (create_returns model_object w w1 data Hcreate) as (-> & Hdocs & _).
  rewrite lookup_insert_eq in Hl. simpl in Hl.
  pose proof (lookup_total_correct _ _ _ Hl) as Hq.
  assert (Ht : truthy (PStr (py_str (POid oid))) = true).
  { simpl. fold oid. by destruct (String.eqb_spec (py_str (POid oid)) EmptyString). }
  assert (Hc := convert_native l w1 (PStr (py_str (POid oid))) oid).
  rewrite Hq, lookup_singleton_eq in Hc. specialize (Hc eq_refl Ht Hparse).
  rewrite insert_singleton_eq in Hc.
  rewrite (find_single l None [] PNone w1 _ Hc). simpl.
  rewrite lookup_total_insert_eq, Hdocs, List.filter_app. simpl.
  fold oid. fold stored.
  assert (Hold : List.filter (matches {["_id" := POid oid]}) (documents w) = []).
  { clear -Hfresh Hmatch. induction Hfresh as [|d ds Hd _ IH]; simpl; [done|].
    rewrite Hmatch, bool_decide_eq_false_2 by done. exact IH. }
  rewrite Hold, Hmatch, bool_decide_eq_true_2 by (unfold stored; apply lookup_insert_eq).
  done.
Qed.

End ManagerMore.

(** ** The request pipeline *)

Section PipelineMore.
Context {libs : Libraries}.
Import Driver MotorModelManager MongoAPIMixin Requests.

(** X13: after [prepare] has parsed the query arguments, whatever the
    checks answer, the handler's filter is a new object that holds the
    arguments without the reserved keys [page] and [page_size], the
    manager's [skip] and [limit] are the handler's page and page size, and
    the objects that were in the heap and the collection are as before. *)
Theorem prepare_filter_and_pagination (self : Handler) (args : dict) (w : world) :
  (extract_query_args (query_arguments (request self))).1 = Ok args ->
  exists r w' f,
    prepare self w = (r, w') /\
    heap w' !! query_filter w' = Some f /\
    f !! "page" = None /\ f !! "page_size" = None /\
    (forall k, k ≠ "page" -> k ≠ "page_size" -> f !! k = args !! k) /\
    page w' = default (PInt 0) (args !! "page") /\
    manager_skip w' = page w' /\
    page_size w' = default (page_size w) (args !! "page_size") /\
    manager_limit w' = page_size w' /\
    (forall l d, heap w !! l = Some d -> heap w' !! l = Some d) /\
    documents w' = documents w.
Proof.
  intros Hargs. rewrite (prepare_spec self args w Hargs), checks_spec.
  assert (Hframe : forall l d, heap w !! l = Some d ->
            <[fresh (dom (heap w)) := base.delete "page_size" (base.delete "page" args)]>
              (heap w) !! l = Some d).
  { intros l d Hl. rewrite lookup_insert_ne; [done|].
    intros <-. apply (is_fresh (dom (heap w))). apply elem_of_dom. by eexists. }
  assert (Hother : forall k, k ≠ "page" -> k ≠ "page_size" ->
            base.delete "page_size" (base.delete "page" args) !! k = args !! k).
  { intros k Hp Hs. by rewrite !lookup_delete_ne. }
  assert (Hpage : base.delete "page_size" (base.delete "page" args) !! "page" = None).
  { rewrite lookup_delete_ne by done. apply lookup_delete_eq. }
  destruct (first_refusal _ _) as [[k c]|]; [|destruct (authenticate _ _)];
    eexists _, _, _; (split; [reflexivity|]); simpl;
    rewrite lookup_insert_eq; repeat split; try done; apply lookup_delete_eq.
Qed.

(** X14: a request that a permission class or the authenticator refuses,
    as it is given to them, which is without the last value of each of its
    arguments, does not reach its method: whatever the method is, the
    answer is the refusal (403 or 401) and the collection is as it was. *)
Theorem refused_request_runs_no_method (self : Handler) (args : dict)
    (method : Handler -> M unit) (w : world) :
  (extract_query_args (query_arguments (request self))).1 = Ok args ->
  let received := request (prepared self) in
  first_refusal received (permissions_classes self) ≠ None \/
  authenticate (authentication_class self) received = false ->
  exists code body w',
    execute self method w = (Responded code (written w ++ [body]), w') /\
    (code = 403 \/ code = 401) /\
    documents w' = documents w /\
    Forall (fun e => event_query e = None) (drop (length (events w)) (events w')).
Proof.
  intros Hargs received Hrefused. unfold execute. unfold bind at 1.
  rewrite (prepare_spec self args w Hargs), checks_spec.
  change (permissions_classes (prepared self)) with (permissions_classes self).
  change (authentication_class (prepared self)) with (authentication_class self).
  fold received.
  assert (Hcalls : forall n,
            Forall (fun e => event_query e = None) (has_permission_call <$> seq 0 n)).
  { intros n. apply Forall_fmap, Forall_forall. done. }
  destruct (first_refusal _ _) as [[k c]|] eqn:Hfirst.
  - eexists _, _, _. split; [reflexivity|]. simpl.
    split; [by left|]. split; [done|].
    rewrite drop_app_length. apply (Hcalls (S k)).
  - destruct Hrefused as [?|Hauth]; [done|]. rewrite Hauth.
    eexists _, _, _. split; [reflexivity|]. simpl.
    split; [by right|]. split; [done|].
    rewrite drop_app_length. apply Forall_app. split; [apply Hcalls|].
    by repeat constructor.
Qed.

(** X15: the object-level check answers with the first class that refuses
    the object, 403 and that class's message; when no class refuses it
    returns and has written nothing. *)
Theorem check_object_permissions_spec (self : Handler) (obj : jval) (w : world) :
  check_object_permissions self obj w =
    match List.find (fun c => negb (has_object_permission c (request self) obj))
            (permissions_classes self) with
    | Some c => (Raise Finish, set_status 403 (set_written (written w ++ [message c]) w))
    | None => (Ok tt, w)
    end.
Proof.
  unfold check_object_permissions.
  induction (permissions_classes self) as [|c rest IH]; simpl; [done|].
  destruct (has_object_permission c (request self) obj); simpl; [exact IH|].
  unfold json_response. run. done.
Qed.

(** X16: the fields of a body are checked against the model before
    anything else is done with the body: a field that the model does not
    have is answered with 400 and the message on unknown fields, also when
    the body has a protected field as well; a protected field among known
    fields is answered with 400 and the message on protected fields; only a
    body of known, unprotected fields passes, and nothing is written. *)
Theorem validate_body_data_spec (model : ModelClass) (data : list (string * jval))
    (w : world) :
  let unknown := JObj [("error", JList [JStr "Campo(s) não existente(s) no modelo."])] in
  let protected :=
    JObj [("error", JList [JStr "Não são permitidas alterações de campos protegidos."])] in
  (Exists (fun field => field ∉ fields model) data.*1 ->
   validate_body_data model data w =
     (Raise Finish, set_status 400 (set_written (written w ++ [unknown]) w))) /\
  (Forall (fun field => field ∈ fields model) data.*1 ->
   Exists (fun field => field ∈ get_protected_fields model) data.*1 ->
   validate_body_data model data w =
     (Raise Finish, set_status 400 (set_written (written w ++ [protected]) w))) /\
  (Forall (fun field => field ∈ fields model) data.*1 ->
   Forall (fun field => field ∉ get_protected_fields model) data.*1 ->
   validate_body_data model data w = (Ok tt, w)).
Proof.
  intros unknown protected.
  assert (Hright : forall l : list string,
            forallb (fun field => bool_decide (field ∈ fields model)) l = true <->
            Forall (fun field => field ∈ fields model) l).
  { intros l. induction l as [|x l IH]; simpl; [by split|].
    rewrite andb_true_iff, Forall_cons, IH, bool_decide_eq_true. done. }
  assert (Hprot : forall l : list string,
            existsb (fun field => bool_decide (field ∈ get_protected_fields model)) l = true <->
            Exists (fun field => field ∈ get_protected_fields model) l).
  { intros l. induction l as [|x l IH]; simpl; [split; [done|by intros ?%Exists_nil]|].
    rewrite orb_true_iff, Exists_cons, IH, bool_decide_eq_true. done. }
  unfold validate_body_data, json_response. repeat split.
  - intros Hex. run.
    destruct (forallb _ data.*1) eqn:Hall; simpl; [|done].
    apply Hright in Hall. apply Exists_exists in Hex as (field & Hin & Hnot).
    rewrite Forall_forall in Hall. by destruct (Hnot (Hall field Hin)).
  - intros Hall Hex. run.
    apply Hright in Hall. apply Hprot in Hex. by rewrite Hall, Hex.
  - intros Hall Hnone. run.
    apply Hright in Hall. rewrite Hall. simpl.
    destruct (existsb _ data.*1) eqn:Hex; [|done].
    apply Hprot, Exists_exists in Hex as (field & Hin & Hp).
    rewrite Forall_forall in Hnone. by destruct (Hnone field Hin).
Qed.

End PipelineMore.

Section ViewsMore.
Context {libs : Libraries}.
Import Driver MotorModelManager MongoAPIMixin Requests.

(** X17: for a page number [k] within the pages of the total,
    [paginate_response] returns the rows it was given, unsliced, a single
    document as one row, with the total as count, a link to page [k + 1]
    exactly when [k] pages do not reach the total, and a link to page
    [k - 1] exactly when [k > 1]. *)
Theorem paginate_response_within_pages (self : Handler) (queryset : Queryset)
    (page_size_arg : pyval) (k ps : Z) (w : world) :
  (if truthy page_size_arg then page_size_arg else page_size w) = PInt ps ->
  0 < ps -> 1 <= k -> (k - 1) * ps < total queryset ->
  paginate_response self queryset (PInt k) page_size_arg w =
    (Ok (JObj [("count", JInt (total queryset));
               ("next", if k * ps <? total queryset
                        then JStr (page_link (uri (request self)) (k + 1)) else JNull);
               ("previous", if 1 <? k
                            then JStr (page_link (uri (request self)) (k - 1)) else JNull);
               ("results", JList (rows_of (_value queryset)))]), w).
Proof.
  intros Hps Hpos Hk Hwithin.
  unfold paginate_response, self_page_size. run.
  replace (if negb (truthy page_size_arg) then page_size w else page_size_arg)
    with (PInt ps) by (by destruct (truthy page_size_arg)).
  unfold paginate_try. simpl. unfold Pagination.page, Pagination.num_pages. simpl.
  destruct (Z.ltb_spec k 1); [lia|].
  assert (k <= (total queryset + ps - 1) / ps) by (apply Z.div_le_lower_bound; lia).
  destruct (Z.ltb_spec ((total queryset + ps - 1) / ps) k); [lia|]. simpl.
  unfold Pagination.has_next, Pagination.next_page_number,
    Pagination.previous_page_number. simpl.
  destruct (Z.ltb_spec 1 k); simpl; by destruct (k * ps <? total queryset).
Qed.

(** X18: a page number outside the pages of the total, and a page given as
    a text that is not an integer, are not errors for [paginate_response]:
    it returns no results and no links, with the total as count. *)
Theorem paginate_response_outside_pages (self : Handler) (queryset : Queryset)
    (page_size_arg current_page : pyval) (ps : Z) (w : world) :
  (if truthy page_size_arg then page_size_arg else page_size w) = PInt ps ->
  0 < ps ->
  (exists k, current_page = PInt k /\ (k < 1 \/ total queryset <= (k - 1) * ps)) \/
  (exists s, current_page = PStr s /\ py_int s = None) ->
  paginate_response self queryset current_page page_size_arg w =
    (Ok (JObj [("count", JInt (total queryset)); ("next", JNull); ("previous", JNull);
               ("results", JList [])]), w).
Proof.
  intros Hps Hpos Hpage.
  unfold paginate_response, self_page_size. run.
  replace (if negb (truthy page_size_arg) then page_size w else page_size_arg)
    with (PInt ps) by (by destruct (truthy page_size_arg)).
  unfold paginate_try.
  destruct Hpage as [(k & -> & Hk)|(s & -> & Hs)]; simpl.
  - unfold Pagination.page, Pagination.num_pages. simpl.
    destruct (Z.ltb_spec k 1); simpl; [done|].
    destruct Hk as [?|Hk]; [lia|].
    assert ((total queryset + ps - 1) / ps < k) by (apply Z.div_lt_upper_bound; lia).
    by destruct (Z.ltb_spec ((total queryset + ps - 1) / ps) k); [|lia].
  - by rewrite Hs.
Qed.



End ViewsMore.

Section RetrieveMore.
Context {libs : Libraries}.
Import Driver MotorModelManager MongoAPIMixin Requests.

(** X20: [retrieve] queries for one document with the filters of the query
    string and the identity of the path, converted to a native identifier,
    in place of any identity of the query string; it answers 404 with the
    message on the missing record when no document matches (or the
    document's JSON is falsy), and 200 with the document otherwise. *)
Theorem retrieve_answers (self : Handler) (d : dict) (s : string) (o : ObjectId)
    (object_id : pyval) (w : world) :
  heap w !! query_filter w = Some d ->
  s ≠ EmptyString -> ObjectId_of_str s = Some o ->
  let q := <["_id" := POid o]> d in
  let projection := _parse_remove_fields (public_fields self) in
  let response :=
    match List.filter (matches q) (documents w) with
    | [] => JNull
    | doc :: _ => bson_to_json (project_with projection doc)
    end in
  exists w',
    retrieve self (PStr s) object_id w = (Raise Finish, w') /\
    events w' = events w ++ [count_documents_call q; find_one_call q projection] /\
    heap w' !! query_filter w = Some q /\
    documents w' = documents w /\
    if truthy_json response
    then status w' = 200 /\ written w' = written w ++ [response]
    else status w' = 404 /\
         written w' =
           written w ++ [JObj [("error", JList [JStr "Registro não encontrado."])]].
Proof.
  intros Hd Hs Ho q projection response.
  pose proof (lookup_total_correct _ _ _ Hd) as Hq.
  set (w0 := set_heap (<[query_filter w := <["_id" := PStr s]> d]> (heap w)) w).
  assert (Ht : truthy (PStr s) = true)
    by (simpl; by destruct (String.eqb_spec s EmptyString)).
  assert (Hc := convert_native (query_filter w) w0 (PStr s) o).
  simpl in Hc. rewrite lookup_total_insert_eq, lookup_insert_eq in Hc.
  specialize (Hc eq_refl Ht Ho).
  rewrite insert_insert_eq, insert_insert_eq in Hc. fold q in Hc.
  match type of Hc with
  | _ = (_, ?w1) =>
      assert (Hq1 : heap w1 !!! query_filter w = q) by (simpl; apply lookup_total_insert_eq)
  end.
  pose proof (find_single (query_filter w) (Some ("_id", DESCENDING)) (public_fields self)
                PNone w0 _ Hc) as Hfind.
  cbv zeta in Hfind. rewrite Hq1 in Hfind. fold projection in Hfind.
  change (documents w0) with (documents w) in Hfind.
  change (events w0) with (events w) in Hfind.
  assert (Hresp : _parse_json
            (FoundOne (project_with projection <$> head (List.filter (matches q) (documents w))))
            = response).
  { unfold response. by destruct (List.filter _ _). }
  rewrite Hresp in Hfind.
  destruct (retrieve self (PStr s) object_id w) as [r w'] eqn:Hrun.
  unfold retrieve in Hrun. unfold bind at 1 in Hrun. unfold gets at 1 in Hrun.
  unfold bind at 1 in Hrun. unfold deref at 1, gets at 1 in Hrun.
  unfold bind at 1 in Hrun. unfold assign at 1, modify at 1 in Hrun.
  rewrite Hq in Hrun. fold w0 in Hrun.
  unfold bind at 1 in Hrun. unfold get_queryset in Hrun.
  unfold bind at 1 in Hrun. unfold gets at 1 in Hrun. unfold bind at 1 in Hrun.
  change (query_filter w0) with (query_filter w) in Hrun.
  rewrite Hfind in Hrun.
  unfold ret at 1 in Hrun. unfold process_response, asdict in Hrun.
  cbn [_value] in Hrun.
  unfold json_response in Hrun.
  exists w'. destruct (truthy_json response); run_in Hrun; simplify_eq; simpl;
    rewrite lookup_insert_eq; repeat split; done.
Qed.

(** X21: [retrieve] with an identity that is not well formed answers
    nothing: [InvalidId] escapes, no query is sent, nothing is written, and
    the handler's filter is left with the text as its identity. *)
Theorem retrieve_invalid_identity_escapes (self : Handler) (d : dict) (s : string)
    (object_id : pyval) (w : world) :
  heap w !! query_filter w = Some d ->
  s ≠ EmptyString -> ObjectId_of_str s = None ->
  retrieve self (PStr s) object_id w =
    (Raise (InvalidId s),
     set_heap (<[query_filter w := <["_id" := PStr s]> d]> (heap w)) w).
Proof.
  intros Hd Hs Ho.
  pose proof (lookup_total_correct _ _ _ Hd) as Hq.
  set (w0 := set_heap (<[query_filter w := <["_id" := PStr s]> d]> (heap w)) w).
  assert (Hc := convert_invalid (query_filter w) w0 s).
  simpl in Hc. rewrite lookup_total_insert_eq, lookup_insert_eq in Hc.
  specialize (Hc eq_refl Hs Ho).
  destruct (operation_raises _ _ _ _ Hc) as (Hfind & _).
  unfold retrieve. unfold bind at 1. unfold gets at 1.
  unfold bind at 1. unfold deref at 1, gets at 1.
  unfold bind at 1. unfold assign at 1, modify at 1.
  rewrite Hq. fold w0.
  unfold bind at 1. unfold get_queryset.
  unfold bind at 1. unfold gets at 1. unfold bind at 1.
  change (query_filter w0) with (query_filter w).
  by rewrite Hfind.
Qed.

(** X22: [get] never serves [retrieve]. With a truthy [id] among the
    keyword arguments it chooses [retrieve] and calls it with the arguments
    of [get]; [retrieve] has no parameter [id], so [TypeError] is raised
    before anything is done. In every other case [get] is [list]. *)
Theorem get_never_retrieves (self : Handler) (args : list pyval) (kwargs : dict)
    (w : world) :
  get self args kwargs w =
    if truthy (default PNone (kwargs !! "id")) then (Raise TypeError, w)
    else ModelAPIView.list self w.
Proof.
  unfold get. destruct (truthy (default PNone (kwargs !! "id"))) eqn:Ht; [|done].
  unfold bind_retrieve.
  destruct (kwargs !! "id") as [v|] eqn:Hid; [|done].
  rewrite bool_decide_eq_false_2; [done|].
  intros Hsub. assert (Hin : "id" ∈ dom kwargs) by (apply elem_of_dom; by eexists).
  apply Hsub in Hin. by apply elem_of_singleton in Hin.
Qed.

(** X23: the DELETE handler queries by the identity of the path alone: the
    one call to the driver is [delete_one] with the native identifier as
    the whole filter, whatever the query string was, and the handler's own
    filter and every other object in the heap are as before. *)
Theorem delete_queries_by_identity_alone (object_id : string) (o : ObjectId) (w : world) :
  object_id ≠ EmptyString -> ObjectId_of_str object_id = Some o ->
  let q : dict := {["_id" := POid o]} in
  exists w',
    ModelAPIView.delete object_id w = (Raise Finish, w') /\
    events w' = events w ++ [delete_one_call q] /\
    documents w' = remove_first q (documents w) /\
    query_filter w' = query_filter w /\
    (forall l d, heap w !! l = Some d -> heap w' !! l = Some d).
Proof.
  intros Hs Ho q.
  set (l := fresh (dom (heap w))).
  set (w0 := set_heap (<[l := {["_id" := PStr object_id]}]> (heap w)) w).
  assert (Ht : truthy (PStr object_id) = true)
    by (simpl; by destruct (String.eqb_spec object_id EmptyString)).
  assert (Hc := convert_native l w0 (PStr object_id) o).
  simpl in Hc. rewrite lookup_total_insert_eq, lookup_singleton_eq in Hc.
  specialize (Hc eq_refl Ht Ho).
  rewrite insert_insert_eq, insert_singleton_eq in Hc. fold q in Hc.
  destruct (ModelAPIView.delete object_id w) as [r w'] eqn:Hrun.
  unfold ModelAPIView.delete in Hrun. unfold bind at 1 in Hrun. unfold alloc in Hrun.
  fold l in Hrun. fold w0 in Hrun. unfold bind at 1 in Hrun.
  rewrite (delete_after_conversion l w0 _ Hc) in Hrun.
  unfold json_response in Hrun. run_in Hrun. rewrite lookup_total_insert_eq in Hrun.
  simplify_eq. eexists. split; [reflexivity|]. simpl. repeat split; try done.
  intros l' d Hl'. rewrite lookup_insert_ne; [done|].
  intros <-. apply (is_fresh (dom (heap w))). apply elem_of_dom. by eexists.
Qed.

End RetrieveMore.

(** ** The further properties at concrete inputs *)

Lemma replace_dunder_idempotent_witness : PyStr.replace_dunder "status" = "status".
Proof. apply (proj1 (replace_dunder_idempotent "status")). reflexivity. Defined.

Lemma extract_query_args_keys_witness :
  exists d,
    (extract_query_args [("user__id", ["5"]); ("tag", ["a,b"])]).1 = Ok d /\
    dom d = list_to_set (PyStr.replace_dunder <$> [("user__id", ["5"]); ("tag", ["a,b"])].*1).
Proof.
  apply (extract_query_args_keys (libs := Sample.libs)).
  repeat constructor; eexists _, _; split; reflexivity.
Defined.

Lemma extract_query_args_snoc_witness :
  (extract_query_args ([("a__b", ["1"])] ++ [("a.b", ["x"; "2,3"])])).1 =
    Ok (<[PyStr.replace_dunder "a.b" := spec_filter_value "2,3"]> {["a.b" := PInt 1]}).
Proof.
  apply (extract_query_args_snoc (libs := Sample.libs) [("a__b", ["1"])] {["a.b" := PInt 1]}
           "a.b" ["x"; "2,3"] "2,3" "2,3"); vm_compute; reflexivity.
Defined.

Lemma extract_query_args_values_witness :
  parsed_value (PInts [1; 2]) /\
  (truthy (PInts [1; 2]) = false -> PInts [1; 2] = PInt 0 \/ PInts [1; 2] = PStr EmptyString).
Proof.
  apply (extract_query_args_values (libs := Sample.libs) [("s", ["1,2"])]
           {["s" := PInts [1; 2]]} "s"); vm_compute; reflexivity.
Defined.

Lemma undecodable_value_escapes_witness :
  let self :=
    sample_handler [("a", ["1"]); ("b", [String (ascii_of_nat 200) EmptyString])]
      [true] true in
  let w := new_world (Sample.numbered 3) 3 in
  execute self ModelAPIView.list w = (Escaped UnicodeDecodeError, w).
Proof.
  intros self w.
  apply (undecodable_value_escapes (libs := Sample.libs) self ModelAPIView.list
           [("a", ["1"])] [] "b" [String (ascii_of_nat 200) EmptyString]
           (String (ascii_of_nat 200) EmptyString) w); try reflexivity.
  repeat constructor. eexists _, _. split; reflexivity.
Defined.

Lemma extract_query_args_pops_witness :
  (extract_query_args [("a", ["1"; "2"]); ("b", ["x"])]).2 = [("a", ["1"]); ("b", [])].
Proof.
  apply (proj1 (extract_query_args_pops (libs := Sample.libs)
                  [("a", ["1"; "2"]); ("b", ["x"])])
           {["a" := PInt 2; "b" := PStr "x"]}).
  vm_compute. reflexivity.
Defined.

Lemma convert_id_field_idempotent_witness :
  let w := world_with_filter {["_id" := PStr "0000000000000000000000ff"]}
             (Sample.numbered 3) in
  let w1 := (MotorModelManager._convert_id_field 0%nat w).2 in
  heap w1 ≠ heap w /\ MotorModelManager._convert_id_field 0%nat w1 = (Ok 0%nat, w1).
Proof.
  intros w w1. split.
  - vm_compute. discriminate.
  - apply (convert_id_field_idempotent (libs := Sample.libs) 0%nat 0%nat w w1).
    vm_compute. reflexivity.
Defined.

Lemma find_one_first_match_witness :
  let w := world_with_filter {["n" := PInt 1]} (Sample.numbered 3) in
  match (MotorModelManager.find 0%nat false None ["_id"] PNone w).1 with
  | Ok queryset => total queryset = 1 /\ _value queryset = JObj [("n", JInt 1)]
  | Raise _ => False
  end.
Proof.
  intros w.
  destruct (MotorModelManager.find 0%nat false None ["_id"] PNone w)
    as [[queryset|e] w'] eqn:Hfind; simpl.
  - destruct (find_one_first_match _ _ _ _ _ _ _ Hfind) as (Htotal & Hvalue & _).
    rewrite Htotal, Hvalue. split; vm_compute; reflexivity.
  - vm_compute in Hfind. discriminate.
Defined.


Lemma create_then_find_one_witness :
  let model_object := mkModel {["_id" := PStr "mine"; "name" := PStr "x"]} in
  let w := world_with_filter {["_id" := PStr "000000000000000000000002"]}
             (Sample.numbered 2) in
  (MotorModelManager.find 0%nat false None [] PNone
     (MotorModelManager.create model_object w).2).1 =
    Ok (mkQueryset
          (bson_to_json (<["_id" := POid (ObjectId_generate (generated w))]>
                           (base.delete "_id" (to_primitive model_object)))) 1).
Proof.
  intros model_object w.
  eapply (create_then_find_one (libs := Sample.libs) model_object w _ _ 0%nat).
  - vm_compute. reflexivity.
  - vm_compute. discriminate.
  - vm_compute. reflexivity.
  - intros d. apply bool_decide_ext.
    apply (map_Forall_singleton (fun k v => d !! k = Some v)).
  - repeat constructor; intros H; vm_compute in H; discriminate.
  - vm_compute. reflexivity.
Defined.

Lemma prepare_filter_and_pagination_witness :
  let self := sample_handler [("page", ["40"]); ("n", ["1"])] [false] true in
  let w' := (MongoAPIMixin.prepare self (new_world (Sample.numbered 3) 3)).2 in
  manager_skip w' = PInt 40 /\
  exists f, heap w' !! query_filter w' = Some f /\ f !! "page" = None.
Proof.
  intros self w'.
  destruct (prepare_filter_and_pagination (libs := Sample.libs) self
              {["page" := PInt 40; "n" := PInt 1]} (new_world (Sample.numbered 3) 3))
    as (r & w1 & f & Hrun & Hf & Hpage & _ & _ & Hp & Hskip & _).
  - vm_compute. reflexivity.
  - unfold w'. rewrite Hrun. simpl. split.
    + rewrite Hskip, Hp. reflexivity.
    + exists f. split; [exact Hf|exact Hpage].
Defined.

Lemma refused_request_runs_no_method_witness :
  let self := sample_handler [] [true] false in
  let w := new_world (Sample.numbered 3) 3 in
  exists code body w',
    execute self (fun _ => ModelAPIView.delete "000000000000000000000001") w =
      (Responded code (written w ++ [body]), w') /\
    (code = 403 \/ code = 401) /\
    documents w' = documents w /\
    Forall (fun e => event_query e = None) (drop (length (events w)) (events w')).
Proof.
  intros self w.
  apply (refused_request_runs_no_method (libs := Sample.libs) self ∅).
  - reflexivity.
  - right. reflexivity.
Defined.

Lemma validate_body_data_witness :
  let model := mkModelClass ["_id"; "name"; "created"] ["_id"; "created"] in
  let w := new_world [] 0 in
  status (Requests.validate_body_data model [("name", JStr "x"); ("age", JInt 3)] w).2 = 400 /\
  status (Requests.validate_body_data model [("name", JStr "x"); ("_id", JStr "1")] w).2 = 400 /\
  Requests.validate_body_data model [("name", JStr "x")] w = (Ok tt, w).
Proof.
  intros model w.
  destruct (validate_body_data_spec model [("name", JStr "x"); ("age", JInt 3)] w)
    as (Hunknown & _ & _).
  destruct (validate_body_data_spec model [("name", JStr "x"); ("_id", JStr "1")] w)
    as (_ & Hprotected & _).
  destruct (validate_body_data_spec model [("name", JStr "x")] w) as (_ & _ & Hpass).
  split; [|split].
  - rewrite Hunknown; [reflexivity|].
    apply Exists_cons_tl, Exists_cons_hd. simpl. set_solver.
  - rewrite Hprotected; [reflexivity| |].
    + repeat constructor; simpl; set_solver.
    + apply Exists_cons_tl, Exists_cons_hd. simpl. set_solver.
  - apply Hpass; repeat constructor; simpl; set_solver.
Defined.

Lemma paginate_response_within_pages_witness :
  let self := sample_handler [] [true] true in
  MongoAPIMixin.paginate_response self (mkQueryset (JObj [("n", JInt 1)]) 45) (PInt 2) PNone
    (new_world [] 0) =
    (Ok (JObj [("count", JInt 45);
               ("next", JStr "/things?x=1&page=3");
               ("previous", JStr "/things?x=1&page=1");
               ("results", JList [JObj [("n", JInt 1)]])]), new_world [] 0).
Proof.
  intros self.
  apply (paginate_response_within_pages (libs := Sample.libs) self
           (mkQueryset (JObj [("n", JInt 1)]) 45) PNone 2 20 (new_world [] 0));
    [reflexivity|lia|lia|simpl; lia].
Defined.

Lemma paginate_response_outside_pages_witness :
  let self := sample_handler [] [true] true in
  let queryset := mkQueryset (JList [JInt 7]) 45 in
  let empty :=
    JObj [("count", JInt 45); ("next", JNull); ("previous", JNull); ("results", JList [])] in
  MongoAPIMixin.paginate_response self queryset (PInt 4) (PInt 20) (new_world [] 0) =
    (Ok empty, new_world [] 0) /\
  MongoAPIMixin.paginate_response self queryset (PStr "two") PNone (new_world [] 0) =
    (Ok empty, new_world [] 0).
Proof.
  intros self queryset empty. split.
  - apply (paginate_response_outside_pages (libs := Sample.libs) self queryset
             (PInt 20) (PInt 4) 20 (new_world [] 0)); [reflexivity|lia|].
    left. exists 4. split; [reflexivity|]. right. simpl. lia.
  - apply (paginate_response_outside_pages (libs := Sample.libs) self queryset
             PNone (PStr "two") 20 (new_world [] 0)); [reflexivity|lia|].
    right. exists "two". split; reflexivity.
Defined.


Lemma retrieve_answers_witness :
  let self := sample_handler [] [true] true in
  let w := world_with_filter {["_id" := PStr "0000000000000000000000ff"]}
             (Sample.numbered 3) in
  exists w',
    Requests.retrieve self (PStr "000000000000000000000001") PNone w = (Raise Finish, w') /\
    status w' = 200 /\
    written w' =
      [JObj [("_id", JObj [("$oid", JStr "000000000000000000000001")]); ("n", JInt 1)]].
Proof.
  intros self w.
  destruct (retrieve_answers (libs := Sample.libs) self
              {["_id" := PStr "0000000000000000000000ff"]} "000000000000000000000001"
              (Sample.generate 1) PNone w)
    as (w' & Hrun & _ & _ & _ & Hresponse); try (vm_compute; reflexivity).
  - discriminate.
  - exists w'. split; [exact Hrun|]. vm_compute in Hresponse. exact Hresponse.
Defined.

Lemma retrieve_invalid_identity_escapes_witness :
  let self := sample_handler [] [true] true in
  let w := world_with_filter ∅ (Sample.numbered 3) in
  (Requests.retrieve self (PStr "42") PNone w).1 = Raise (InvalidId "42").
Proof.
  intros self w.
  rewrite (retrieve_invalid_identity_escapes (libs := Sample.libs) self ∅ "42" PNone w);
    [reflexivity|vm_compute; reflexivity|discriminate|vm_compute; reflexivity].
Defined.

Lemma delete_queries_by_identity_alone_witness :
  let w := world_with_filter {["n" := PInt 2]} (Sample.numbered 3) in
  exists w',
    ModelAPIView.delete "000000000000000000000001" w = (Raise Finish, w') /\
    events w' = [delete_one_call {["_id" := POid (Sample.generate 1)]}] /\
    length (documents w') = 2%nat /\
    heap w' !! 0%nat = Some {["n" := PInt 2]}.
Proof.
  intros w.
  destruct (delete_queries_by_identity_alone (libs := Sample.libs)
              "000000000000000000000001" (Sample.generate 1) w)
    as (w' & Hrun & Hevents & Hdocs & _ & Hheap).
  - discriminate.
  - vm_compute. reflexivity.
  - exists w'. split; [exact Hrun|]. split; [exact Hevents|]. split.
    + rewrite Hdocs. vm_compute. reflexivity.
    + apply Hheap. vm_compute. reflexivity.
Defined.
